(** * JADE: job parameters, the simulated HPC backend, result summaries
      and the file utilities, embedded from the Python sources.

    Python values are modelled as follows.
    - [str] is [string]. The model covers text made of ASCII characters:
      [lower] and the regular-expression class [\w] act on the ASCII
      letters and digits, and leave out what Python also does to the
      letters of other alphabets.
    - [int] is [Z] (Python integers do not wrap around).
    - a [dict] with string keys is a [gmap string _].
    - a raised exception is the [Raise] branch of [result]. *)

From Stdlib Require Import ZArith List Ascii String Numbers.DecimalString
  Numbers.DecimalZ.
From stdpp Require Import base option list gmap strings.

Local Open Scope string_scope.
Local Open Scope Z_scope.

(** ** Exceptions and results *)

Inductive exn : Type :=
| KeyError (key : string)
| ValueError (msg : string)
| InvalidParameter (msg : string)
| InvalidExtension (msg : string)
| OSError (msg : string)
| OtherError (msg : string).

Inductive result (A : Type) : Type :=
| Ok (a : A)
| Raise (e : exn).

Arguments Ok {A} a.
Arguments Raise {A} e.

Definition rbind {A B : Type} (r : result A) (k : A -> result B) : result B :=
  match r with
  | Ok a => k a
  | Raise e => Raise e
  end.

Notation "'do' x <- r ; k" := (rbind r (fun x => k))
  (at level 10, x binder, r at level 100, k at level 200).

Definition raises {A : Type} (r : result A) : Prop :=
  match r with
  | Ok _ => False
  | Raise _ => True
  end.

(** ** Python string primitives *)

Module PyStr.

(** [c.isupper()] for an ASCII character. *)
Definition is_ascii_upper (c : ascii) : bool :=
  let n := nat_of_ascii c in (65 <=? n)%nat && (n <=? 90)%nat.

Definition is_ascii_lower (c : ascii) : bool :=
  let n := nat_of_ascii c in (97 <=? n)%nat && (n <=? 122)%nat.

Definition is_ascii_digit (c : ascii) : bool :=
  let n := nat_of_ascii c in (48 <=? n)%nat && (n <=? 57)%nat.

Definition lower_char (c : ascii) : ascii :=
  if is_ascii_upper c then ascii_of_nat (nat_of_ascii c + 32) else c.

(** [s.lower()] on ASCII text: the letters A to Z become a to z. *)
Fixpoint lower (s : string) : string :=
  match s with
  | EmptyString => EmptyString
  | String c s' => String (lower_char c) (lower s')
  end.

(** [s.replace(old, new)] where [old] and [new] are one character long:
    every occurrence of [old] becomes [new]. *)
Fixpoint replace (old new : ascii) (s : string) : string :=
  match s with
  | EmptyString => EmptyString
  | String c s' =>
      String (if Ascii.eqb c old then new else c) (replace old new s')
  end.

(** [sep.join(parts)] *)
Fixpoint join (sep : string) (parts : list string) : string :=
  match parts with
  | [] => ""
  | [p] => p
  | p :: ps => p ++ sep ++ join sep ps
  end.

(** [str(n)] for an [int]: the canonical decimal numeral, with a leading
    minus sign for a negative number. *)
Definition str (n : Z) : string := NilZero.string_of_int (Z.to_int n).

(** [int(s)] on decimal numerals made of an optional minus sign and
    digits; any other text is a [ValueError]. *)
Definition int (s : string) : result Z :=
  match NilZero.int_of_string s with
  | Some d => Ok (Z.of_int d)
  | None => Raise (ValueError "invalid literal for int() with base 10")
  end.

(** [s.startswith(prefix)] *)
Fixpoint startswith (prefix s : string) : bool :=
  match prefix, s with
  | EmptyString, _ => true
  | String a prefix', String b s' => Ascii.eqb a b && startswith prefix' s'
  | String _ _, EmptyString => false
  end.

(** [s.rfind(c)] for a one-character [c]: the highest index at which
    [c] occurs, [-1] when it does not occur. *)
Fixpoint rfind (c : ascii) (s : string) : Z :=
  match s with
  | EmptyString => -1
  | String a rest =>
      let r := rfind c rest in
      if 0 <=? r then r + 1 else if Ascii.eqb a c then 0 else -1
  end.

(** [s[:n]] and [s[n:]] for [0 <= n]. *)
Fixpoint take (n : nat) (s : string) : string :=
  match n, s with
  | S n', String a rest => String a (take n' rest)
  | _, _ => EmptyString
  end.

Fixpoint drop (n : nat) (s : string) : string :=
  match n, s with
  | S n', String _ rest => drop n' rest
  | _, _ => s
  end.

(** A character with a code below 128, and a text made of such
    characters only. On these, Python's [lower], [\w] and [\d] are the
    ASCII ones of this file, and every usual text encoding reads and
    writes them as they are. *)
Definition is_ascii (c : ascii) : bool := (nat_of_ascii c <? 128)%nat.

Fixpoint ascii_only (s : string) : bool :=
  match s with
  | EmptyString => true
  | String c rest => is_ascii c && ascii_only rest
  end.

(** The last character of [s], if any. *)
Fixpoint last_char (s : string) : option ascii :=
  match s with
  | EmptyString => None
  | String a EmptyString => Some a
  | String _ rest => last_char rest
  end.

(** [os.path.join(a, b)] on POSIX. *)
Definition path_join (a b : string) : string :=
  if startswith "/" b then b
  else match last_char a with
       | None => b
       | Some c => if Ascii.eqb c "/" then a ++ b else a ++ "/" ++ b
       end.

(** [os.path.basename(p)] on POSIX: [p[p.rfind("/") + 1:]]. *)
Definition basename (p : string) : string :=
  drop (Z.to_nat (rfind "/" p + 1)) p.

End PyStr.

(** ** jade/extensions/demo/autoregression_parameters.py *)

Module AutoRegressionParameters.

Record t : Type := mk {
  country : string;
  data : string;
  _name : string
}.

Definition _EXTENSION : string := "demo".

(** [_create_name]: [self.country.replace(" ", "_").lower()] *)
Definition _create_name (country : string) : string :=
  PyStr.lower (PyStr.replace " " "_" country).

Definition __init__ (country data : string) : t :=
  {| country := country; data := data; _name := _create_name country |}.

Definition extension (self : t) : string := _EXTENSION.

Definition name (self : t) : string := _name self.

Definition serialize (self : t) : gmap string string :=
  <["country" := _name self]>
    (<["data" := data self]>
       (<["extension" := extension self]> ∅)).

(** [param[key]] on a dict: a missing key raises [KeyError]. *)
Definition getitem (param : gmap string string) (key : string) : result string :=
  match param !! key with
  | Some v => Ok v
  | None => Raise (KeyError key)
  end.

Definition deserialize (param : gmap string string) : result t :=
  do c <- getitem param "country";
  do d <- getitem param "data";
  Ok (__init__ c d).

End AutoRegressionParameters.

(** ** jade/hpc/common.py and jade/enums.py *)

Module Hpc.

(** Modelled from the spec: the declaration of [HpcJobStatus] is in
    jade/hpc/common.py, which is not among the sources; the spec lists
    its members. *)
Inductive HpcJobStatus : Type := NONE | QUEUED | RUNNING | COMPLETE | FAILED.

(** Modelled from the spec: [HpcJobInfo] is the named tuple
    [(job_id, name, status)] of jade/hpc/common.py. A job id is [None]
    or a string. *)
Record HpcJobInfo : Type := mkHpcJobInfo {
  job_id : option string;
  name : string;
  status : HpcJobStatus
}.

(** [jade.enums.Status]; [submit] only uses [GOOD]. *)
Inductive Status : Type := GOOD | ERROR.

End Hpc.

#[global] Instance HpcJobStatus_eq_dec : EqDecision Hpc.HpcJobStatus.
Proof. solve_decision. Defined.

(** ** jade/utils/subprocess_manager.py *)

Module SubprocessManager.

(** Modelled from the spec: the class is not among the sources. The
    spec says that the simulated backend runs the submission script as a
    child process, which is alive for a while and then exits. The record
    holds the script that was started and whether the child is alive. *)
Record t : Type := mk {
  script : option string;
  alive : bool
}.

Definition __init__ : t := {| script := None; alive := false |}.

(** [run(filename)] starts the child process; the call is taken to
    return normally. The record starts with the child alive; the child
    may exit at any time after that ([child_exits]), so what is proved
    about a manager after [submit] is stated for every state of its
    subprocess. *)
Definition run (self : t) (filename : string) : t :=
  {| script := Some filename; alive := true |}.

Definition in_progress (self : t) : bool := alive self.

(** The environment's step: the child process exits. *)
Definition child_exits (self : t) : t :=
  {| script := script self; alive := false |}.

End SubprocessManager.

(** ** jade/hpc/fake_manager.py *)

Module FakeManager.

Import Hpc.

(** The class attribute [FakeManager.next_job_id]: one cell for the
    class, read and written by [submit] through the class name. *)
Record class_state : Type := mkClass {
  next_job_id : Z
}.

(** The class body sets [next_job_id = 1]. *)
Definition class_init : class_state := {| next_job_id := 1 |}.

(** The attributes of one instance. *)
Record t : Type := mk {
  _subprocess_mgr : option SubprocessManager.t;
  _job_id : option string
}.

(** [__init__(self, _)]: the argument is not used. *)
Definition __init__ {C : Type} (_ : C) : t :=
  {| _subprocess_mgr := None; _job_id := None |}.

Definition cancel_job (self : t) (job_id : option string) : Z := 0.

Definition check_status (self : t) (name job_id : option string)
  : result HpcJobInfo :=
  match _subprocess_mgr self with
  | None => Ok (mkHpcJobInfo job_id "" NONE)
  | Some mgr =>
      if SubprocessManager.in_progress mgr
      then Ok (mkHpcJobInfo job_id "" RUNNING)
      else Ok (mkHpcJobInfo job_id "" COMPLETE)
  end.

Definition check_statuses (self : t) : result (gmap (option string) HpcJobStatus) :=
  do info <- check_status self None (_job_id self);
  Ok {[ _job_id self := status info ]}.

(** [submit] returns the new class state, the new instance state and the
    tuple [(Status.GOOD, self._job_id, None)]. *)
Definition submit (cls : class_state) (self : t) (filename : string)
  : class_state * t * (Status * string * option string) :=
  let job_id := PyStr.str (next_job_id cls) in
  let cls' := {| next_job_id := next_job_id cls + 1 |} in
  let mgr := SubprocessManager.run SubprocessManager.__init__ filename in
  (cls', {| _subprocess_mgr := Some mgr; _job_id := Some job_id |},
   (GOOD, job_id, None)).

(** [get_local_scratch]: [environ] is [os.environ]; a variable counts
    when it is set to a non-empty string. *)
Definition get_local_scratch (self : t) (environ : gmap string string) : string :=
  let lookup_dir (envvar : string) : option string :=
    match environ !! envvar with
    | Some tmpdir => if String.eqb tmpdir "" then None else Some tmpdir
    | None => None
    end in
  match lookup_dir "TMP" with
  | Some tmpdir => tmpdir
  | None =>
      match lookup_dir "TEMP" with
      | Some tmpdir => tmpdir
      | None => "."
      end
  end.

End FakeManager.

(** ** One Python process holding several FakeManager objects *)

Module Process.

(** The class attribute is one cell of the process; the instances live
    in a heap keyed by object identity. *)
Record t : Type := mk {
  cls : FakeManager.class_state;
  objects : gmap nat FakeManager.t
}.

(** A process that has just imported the module. *)
Definition start : t := {| cls := FakeManager.class_init; objects := ∅ |}.

(** [FakeManager(config)]: allocates a new object and returns its
    identity. *)
Definition new {C : Type} (config : C) (p : t) : t * nat :=
  let a := fresh (dom (objects p)) in
  ({| cls := cls p; objects := <[a := FakeManager.__init__ config]> (objects p) |}, a).

(** [a.submit(filename)] for the object with identity [a]; [None] when
    the process has no such object. *)
Definition submit (a : nat) (filename : string) (p : t) : option (t * string) :=
  match objects p !! a with
  | None => None
  | Some self =>
      let '(cls', self', (_, job_id, _)) := FakeManager.submit (cls p) self filename in
      Some ({| cls := cls'; objects := <[a := self']> (objects p) |}, job_id)
  end.

(** A sequence of [submit] calls, each on some object, with the ids
    returned, in call order. *)
Fixpoint submits (calls : list (nat * string)) (p : t) : option (t * list string) :=
  match calls with
  | [] => Some (p, [])
  | (a, filename) :: rest =>
      match submit a filename p with
      | None => None
      | Some (p', job_id) =>
          match submits rest p' with
          | None => None
          | Some (p'', ids) => Some (p'', job_id :: ids)
          end
      end
  end.

End Process.

(** ** The file system seen by jade/utils/utils.py *)

Module Os.

Record file : Type := mkFile {
  content : string;
  st_mode : Z
}.

(** [fs] is the current directory tree (path to file); [umask] is the
    process's file-creation mask; [faults] names the system calls that
    fail in this run (disk full, permission denied); [history] records
    the tree after every call that changed it, oldest first: these are
    the states another process can observe. [short_write] is the number
    of characters that a failing write still puts into the file, and
    [rename_refused] says that [os.rename] is refused in this run.

    [fs] gives, for each path, the file seen through that path. The
    model has no links: what an operation on one path does to other
    paths that lead to the same file is outside it. *)
Inductive syscall : Type := SysRemove | SysOpen | SysWrite | SysChmod.

Record world : Type := mkWorld {
  fs : gmap string file;
  umask : Z;
  faults : syscall -> bool;
  history : list (gmap string file);
  short_write : nat;
  rename_refused : bool
}.

Definition M (A : Type) : Type := world -> world * result A.

Definition ret {A : Type} (a : A) : M A := fun w => (w, Ok a).

Definition bind {A B : Type} (m : M A) (k : A -> M B) : M B :=
  fun w =>
    match m w with
    | (w', Ok a) => k a w'
    | (w', Raise e) => (w', Raise e)
    end.

Definition commit (w : world) (fs' : gmap string file) : world :=
  {| fs := fs'; umask := umask w; faults := faults w;
     history := history w ++ [fs'];
     short_write := short_write w; rename_refused := rename_refused w |}.

(** [os.path.exists(path)] *)
Definition path_exists (path : string) : M bool :=
  fun w => (w, Ok (bool_decide (is_Some (fs w !! path)))).

(** [os.remove(path)] *)
Definition remove (path : string) : M unit :=
  fun w =>
    if faults w SysRemove then (w, Raise (OSError "remove"))
    else match fs w !! path with
         | None => (w, Raise (OSError "FileNotFoundError"))
         | Some _ => (commit w (delete path (fs w)), Ok tt)
         end.

(** [open(path, "w")]: truncates an existing file, or creates an empty
    one with mode [0o666 & ~umask]. *)
Definition open_w (path : string) : M unit :=
  fun w =>
    if faults w SysOpen then (w, Raise (OSError "open"))
    else
      let f := match fs w !! path with
               | Some old => {| content := ""; st_mode := st_mode old |}
               | None => {| content := ""; st_mode := Z.ldiff 438 (umask w) |}
               end in
      (commit w (<[path := f]> (fs w)), Ok tt).

(** [f_out.write(text)] followed by the close at the end of the [with]
    block, on a file opened by [open_w]. A write that fails leaves in
    the file the first [short_write] characters of the text. *)
Definition write (path text : string) : M unit :=
  fun w =>
    if faults w SysWrite then
      match fs w !! path with
      | None => (w, Raise (OSError "write"))
      | Some f =>
          (commit w (<[path := {| content := content f
                                             ++ PyStr.take (short_write w) text;
                                  st_mode := st_mode f |}]> (fs w)),
           Raise (OSError "write"))
      end
    else match fs w !! path with
         | None => (w, Raise (OSError "write"))
         | Some f =>
             (commit w (<[path := {| content := content f ++ text;
                                     st_mode := st_mode f |}]> (fs w)), Ok tt)
         end.

(** [os.stat(path)] *)
Definition stat (path : string) : M file :=
  fun w =>
    match fs w !! path with
    | None => (w, Raise (OSError "FileNotFoundError"))
    | Some f => (w, Ok f)
    end.

(** [os.chmod(path, mode)] *)
Definition chmod (path : string) (mode : Z) : M unit :=
  fun w =>
    if faults w SysChmod then (w, Raise (OSError "chmod"))
    else match fs w !! path with
         | None => (w, Raise (OSError "FileNotFoundError"))
         | Some f =>
             (commit w (<[path := {| content := content f; st_mode := mode |}]> (fs w)),
              Ok tt)
         end.

Definition throw {A : Type} (e : exn) : M A := fun w => (w, Raise e).

(** [open(path)] and the text read through it. A text file is read
    with universal newlines: "\r\n" and "\r" come out as "\n". The
    model reads ASCII files, which every usual encoding decodes as they
    are; a file with bytes that cannot be decoded is outside it. *)
Fixpoint universal_newlines (s : string) : string :=
  match s with
  | EmptyString => EmptyString
  | String c rest =>
      if Ascii.eqb c "013" then
        String "010"
          match rest with
          | String d rest' =>
              if Ascii.eqb d "010" then universal_newlines rest'
              else universal_newlines rest
          | EmptyString => EmptyString
          end
      else String c (universal_newlines rest)
  end.

Definition read_text (path : string) : M string :=
  fun w =>
    if faults w SysOpen then (w, Raise (OSError "open"))
    else match fs w !! path with
         | None => (w, Raise (OSError "FileNotFoundError"))
         | Some f => (w, Ok (universal_newlines (content f)))
         end.

(** [for line in f_in]: the lines of a text, each with its newline; the
    last one may lack it. *)
Fixpoint readlines (s : string) : list string :=
  match s with
  | EmptyString => []
  | String c rest =>
      if Ascii.eqb c "010" then String c "" :: readlines rest
      else match readlines rest with
           | [] => [String c ""]
           | l :: ls => String c l :: ls
           end
  end.

(** [os.rename(src, dst)] between two files of one directory, when it
    is not refused: [dst] becomes the file that [src] was. *)
Definition rename (src dst : string) : M unit :=
  fun w =>
    match fs w !! src with
    | None => (w, Raise (OSError "FileNotFoundError"))
    | Some f => (commit w (<[dst := f]> (delete src (fs w))), Ok tt)
    end.

(** [shutil.move(src, dst)] for a regular file [src] and a [dst] that
    is not a directory: [os.rename], and when that is refused the copy
    of [shutil.copy2] (the content written over [dst], then the mode
    copied) followed by [os.unlink(src)]. *)
Definition move (src dst : string) : M unit :=
  fun w =>
    if rename_refused w then
      bind (stat src) (fun f =>
      bind (open_w dst) (fun _ =>
      bind (write dst (content f)) (fun _ =>
      bind (chmod dst (st_mode f)) (fun _ =>
      remove src)))) w
    else rename src dst w.

(** An operation that leaves the umask and the fault oracle alone. *)
Definition keeps_env {A : Type} (m : M A) : Prop :=
  forall w, faults (m w).1 = faults w /\ umask (m w).1 = umask w.

(** [stat.S_IEXEC], 0o100 *)
Definition S_IEXEC : Z := 64.

Definition no_faults : syscall -> bool := fun _ => false.

End Os.

Notation "'sys' x <- m ; k" := (Os.bind m (fun x => k))
  (at level 10, x binder, m at level 100, k at level 200).

(** ** jade/utils/utils.py *)

Module Utils.

Definition MAX_PATH_LENGTH : Z := 255.

(** The number of elements of [range(start, stop, step)], [step] not 0. *)
Definition range_length (start stop step : Z) : Z :=
  if 0 <? step then
    if start <? stop then (stop - start - 1) / step + 1 else 0
  else
    if stop <? start then (start - stop - 1) / (- step) + 1 else 0.

(** [range(start, stop, step)], as the list of its elements. *)
Definition range (start stop step : Z) : result (list Z) :=
  if step =? 0 then Raise (ValueError "range() arg 3 must not be zero")
  else Ok (map (fun k : nat => start + Z.of_nat k * step)
             (seq 0 (Z.to_nat (range_length start stop step)))).

(** A slice bound brought into [0, len], as Python does for [l[i:j]]. *)
Definition clamp_index (len i : Z) : Z :=
  if i <? 0 then Z.max (i + len) 0 else Z.min i len.

(** [items[i:j]] *)
Definition slice {A : Type} (items : list A) (i j : Z) : list A :=
  let len := Z.of_nat (length items) in
  let lo := clamp_index len i in
  let hi := clamp_index len j in
  take (Z.to_nat (hi - lo)) (drop (Z.to_nat lo) items).

(** [create_chunks(items, size)], as the list of the chunks that the
    generator yields. *)
Definition create_chunks {A : Type} (items : list A) (size : Z) : result (list (list A)) :=
  do indexes <- range 0 (Z.of_nat (length items)) size;
  Ok (map (fun i => slice items i (i + size)) indexes).

Definition create_script (filename text : string) (executable : bool) : Os.M unit :=
  sys present <- Os.path_exists filename;
  sys _ <- (if present : bool then Os.remove filename else Os.ret tt);
  sys _ <- Os.open_w filename;
  sys _ <- Os.write filename text;
  if executable then
    sys curstat <- Os.stat filename;
    Os.chmod filename (Z.lor (Os.st_mode curstat) Os.S_IEXEC)
  else Os.ret tt.

(** The class [\w] of a regular expression on ASCII characters:
    letters, digits and the underscore. *)
Definition is_word_char (c : ascii) : bool :=
  PyStr.is_ascii_upper c || PyStr.is_ascii_lower c || PyStr.is_ascii_digit c
  || Ascii.eqb c "_".

(** The class [[\w\.-]]. *)
Definition in_filename_class (c : ascii) : bool :=
  is_word_char c || Ascii.eqb c "." || Ascii.eqb c "-".

(** [$] without the MULTILINE flag: matches at the end of the string and
    just before a newline that is the last character. *)
Definition at_dollar (rest : string) : bool :=
  match rest with
  | EmptyString => true
  | String c EmptyString => Ascii.eqb c "010"
  | _ => false
  end.

(** [[\w\.-]+$] matched at the head of [s]: one character of the class,
    then either the rest of the repetition or [$]. *)
Fixpoint match_class_plus_dollar (s : string) : bool :=
  match s with
  | EmptyString => false
  | String c rest =>
      in_filename_class c && (match_class_plus_dollar rest || at_dollar rest)
  end.

(** [re.search(r"^[\w\.-]+$", name)] is not [None]; [^] only matches
    at position 0, so the search is a match at the head of [name]. *)
Definition re_search_filename (name : string) : bool :=
  match_class_plus_dollar name.

Definition check_filename (name : string) : result unit :=
  if negb (re_search_filename name) then
    Raise (InvalidParameter (name ++ " contains illegal characters."))
  else if Z.of_nat (String.length name) >? MAX_PATH_LENGTH then
    Raise (InvalidParameter
             ("length of " ++ name ++ " is greater than the limit of "
              ++ PyStr.str MAX_PATH_LENGTH ++ "."))
  else Ok tt.

(** [f_out.write(line)] for each line in turn. *)
Fixpoint write_lines (path : string) (lines : list string) : Os.M unit :=
  match lines with
  | [] => Os.ret tt
  | line :: rest => sys _ <- Os.write path line; write_lines path rest
  end.

(** [modify_file(filename, line_func)]; the extra arguments of the
    source are part of [line_func], which is taken to return normally. *)
Definition modify_file (filename : string) (line_func : string -> string)
  : Os.M unit :=
  let tmp := filename ++ ".tmp" in
  sys present <- Os.path_exists tmp;
  if present : bool then Os.throw (OtherError "AssertionError")
  else
    sys text <- Os.read_text filename;
    sys _ <- Os.open_w tmp;
    sys _ <- write_lines tmp (map line_func (Os.readlines text));
    Os.move tmp filename.

(** [get_cli_string()]; [argv] is [sys.argv]. *)
Definition get_cli_string (argv : list string) : result string :=
  match argv with
  | [] => Raise (OtherError "IndexError")
  | prog :: args => Ok (PyStr.basename prog ++ " " ++ PyStr.join " " args)
  end.

(** [handle_key_error(func)]: the wrapped function. [repr] is Python's
    [repr] on strings, which is how a [KeyError] prints its key. *)
Definition handle_key_error {A B : Type} (repr : string -> string)
    (func : A -> result B) : A -> result B :=
  fun args =>
    match func args with
    | Raise (KeyError key) =>
        Raise (InvalidParameter ("invalid parameter: " ++ repr key))
    | r => r
    end.

(** No character of [s] is other than a dot. *)
Fixpoint only_dots (s : string) : bool :=
  match s with
  | EmptyString => true
  | String c rest => Ascii.eqb c "." && only_dots rest
  end.

(** [os.path.splitext(p)] on POSIX: the extension starts at the last
    dot, when that dot is after the last slash and some character
    between the slash and the dot is not a dot. *)
Definition splitext (p : string) : string * string :=
  let sepIndex := PyStr.rfind "/" p in
  let dotIndex := PyStr.rfind "." p in
  if sepIndex <? dotIndex then
    let filenameIndex := sepIndex + 1 in
    let leading := PyStr.take (Z.to_nat (dotIndex - filenameIndex))
                     (PyStr.drop (Z.to_nat filenameIndex) p) in
    if only_dots leading then (p, "")
    else (PyStr.take (Z.to_nat dotIndex) p, PyStr.drop (Z.to_nat dotIndex) p)
  else (p, "").

(** The modules among which [_get_module_from_extension] chooses;
    [custom] is the one passed as the keyword argument [mod]. *)
Inductive serializer (Mod : Type) : Type :=
| json
| toml
| yaml
| custom (m : Mod).

Arguments json {Mod}.
Arguments toml {Mod}.
Arguments yaml {Mod}.
Arguments custom {Mod} m.

Definition _get_module_from_extension {Mod : Type} (filename : string)
    (kwargs_mod : option Mod) : result (serializer Mod) :=
  let ext := PyStr.lower (splitext filename).2 in
  if String.eqb ext ".json" then Ok json
  else if String.eqb ext ".toml" then Ok toml
  else if String.eqb ext ".yml" || String.eqb ext ".yaml" then Ok yaml
  else match kwargs_mod with
       | Some m => Ok (custom m)
       | None => Raise (InvalidParameter ("Unsupported extension " ++ filename))
       end.

End Utils.

Module FakeManagerScript.

(** [FakeManager.create_submission_script(name, script, filename, path)] *)
Definition create_submission_script (name script filename path : string) : Os.M unit :=
  let lines := ["#!/bin/bash"; script] in
  Utils.create_script filename (PyStr.join (String "010" "") lines) true.

End FakeManagerScript.

(** ** Job configurations and results *)

Module JobConfiguration.

(** The [{module, class_name, data}] table of a post-process config. *)
Record PostProcessConfig : Type := mkPostProcess {
  module : string;
  class_name : string;
  data : gmap string string
}.

(** Modelled from the spec: the class is in
    jade/jobs/job_configuration.py, which is not among the sources. The
    spec describes it as an ordered collection of job parameters (here
    in serialized form) plus optional post-process metadata, and says
    that [num_jobs] is the count of the contained job parameters. *)
Record t : Type := mk {
  jobs : list (gmap string string);
  post_process_config : option PostProcessConfig
}.

Definition get_num_jobs (self : t) : Z := Z.of_nat (length (jobs self)).

End JobConfiguration.

(** ** jade/jobs/job_manager_base.py *)

Module JobManagerBase.

(** Modelled from the spec: [Result] is the tuple
    [(job_name, return_code, execution_time, status)] declared outside
    the sources. [status] is an integer code, which the summary compares
    with 0; the type of the execution time is left open. *)
Record Result (time : Type) : Type := mkResult {
  name : string;
  return_code : Z;
  exec_time_s : time;
  status : Z
}.

Arguments mkResult {time} name return_code exec_time_s status.
Arguments name {time} r.
Arguments return_code {time} r.
Arguments exec_time_s {time} r.
Arguments status {time} r.

Record t (time : Type) : Type := mk {
  _config : JobConfiguration.t;
  _config_file : string;
  _output : string;
  _jobs_output : string;
  _results : list (Result time);
  _results_dir : string
}.

Arguments mk {time} _config _config_file _output _jobs_output _results _results_dir.
Arguments _config {time} t.
Arguments _config_file {time} t.
Arguments _output {time} t.
Arguments _jobs_output {time} t.
Arguments _results {time} t.
Arguments _results_dir {time} t.

Definition get_num_jobs {time : Type} (self : t time) : Z :=
  JobConfiguration.get_num_jobs (_config self).

(** [self._results[:]]: a copy of the list. *)
Definition get_completed_results {time : Type} (self : t time) : list (Result time) :=
  _results self.

(** One turn of the [for job in self._results] loop on the two counters
    [(num_successful, num_failed)]. *)
Definition count_job {time : Type} (counters : Z * Z) (job : Result time) : Z * Z :=
  let '(num_successful, num_failed) := counters in
  if status job =? 0 then (num_successful + 1, num_failed)
  else (num_successful, num_failed + 1).

(** [get_results_summmary]: the object after the call, and the dict
    returned. The method assigns to no attribute of [self]. *)
Definition get_results_summmary {time : Type} (self : t time)
  : t time * gmap string Z :=
  let '(num_successful, num_failed) := fold_left count_job (_results self) (0, 0) in
  let results : gmap string Z :=
    <["num_jobs" := get_num_jobs self]>
      (<["num_complete" := Z.of_nat (length (_results self))]>
         (<["num_successful" := num_successful]>
            (<["num_failed" := num_failed]> ∅))) in
  (self, results).

End JobManagerBase.

(** ** jade/cli/auto_config.py *)

Module AutoConfig.

(** What the command does to the outside, in order. *)
Inductive log_level : Type := DEBUG | WARNING.

Inductive event : Type :=
| SetupLogging (name : string) (console_level : log_level)
| LoadPostProcessConfig (file : string)
| ConstructJobPostProcess (module class_name : string) (data : gmap string string)
| RegistryLookup (extension : string)
| GetExtensionClass (extension : string)
| CliAutoConfig (inputs : string)
| PrintLine (text : string)
| Dump (config : JobConfiguration.t) (config_file : string).

(** A command: the events so far, and a value or an exception. *)
Definition cmd (A : Type) : Type := list event -> list event * result A.

Definition cret {A : Type} (a : A) : cmd A := fun log => (log, Ok a).

Definition cbind {A B : Type} (m : cmd A) (k : A -> cmd B) : cmd B :=
  fun log =>
    match m log with
    | (log', Ok a) => k a log'
    | (log', Raise e) => (log', Raise e)
    end.

(** A call to a collaborator: the event is logged, then the call
    returns or raises. *)
Definition call {A : Type} (ev : event) (r : result A) : cmd A :=
  fun log => ((log ++ [ev])%list, r).

Definition throw {A : Type} (e : exn) : cmd A := fun log => (log, Raise e).

Notation "'run' x <- m ; k" := (cbind m (fun x => k))
  (at level 10, x binder, m at level 100, k at level 200).

Section Collaborators.

(** The classes and functions that [auto_config] imports. *)
Variable load_config_from_file :
  string -> result (string * string * gmap string string).
Variable JobPostProcess :
  string -> string -> gmap string string -> result unit.
Variable is_registered : string -> bool.
Variable CLI : Type.
Variable get_extension_class : string -> result CLI.
Variable cli_auto_config :
  CLI -> string -> option JobConfiguration.PostProcessConfig
  -> result JobConfiguration.t.
Variable dump : JobConfiguration.t -> string -> result unit.

Definition load_post_process (post_process_config_file : option string)
  : cmd (option JobConfiguration.PostProcessConfig) :=
  match post_process_config_file with
  | None => cret None
  | Some file =>
      run loaded <- call (LoadPostProcessConfig file) (load_config_from_file file);
      let '(module, class_name, data) := loaded in
      run _ <- call (ConstructJobPostProcess module class_name data)
                 (JobPostProcess module class_name data);
      cret (Some (JobConfiguration.mkPostProcess module class_name data))
  end.

Definition auto_config (extension inputs config_file : string)
    (post_process_config_file : option string) (verbose : bool) : cmd unit :=
  let level := if verbose then DEBUG else WARNING in
  run _ <- call (SetupLogging "auto_config" level) (Ok tt);
  run post_process_config <- load_post_process post_process_config_file;
  run registered <- call (RegistryLookup extension) (Ok (is_registered extension));
  if negb registered then
    throw (InvalidExtension ("Extension '" ++ extension ++ "' is not registered."))
  else
    run cli <- call (GetExtensionClass extension) (get_extension_class extension);
    run config <- call (CliAutoConfig inputs)
                    (cli_auto_config cli inputs post_process_config);
    run _ <- call (PrintLine ("Created configuration with "
                          ++ PyStr.str (JobConfiguration.get_num_jobs config)
                          ++ " jobs.")) (Ok tt);
    run _ <- call (Dump config config_file) (dump config config_file);
    call (PrintLine ("Dumped configuration to " ++ config_file ++ ".")) (Ok tt).

End Collaborators.

Definition is_dump (ev : event) : bool :=
  match ev with
  | Dump _ _ => true
  | _ => false
  end.

End AutoConfig.

(** ** jade/cli/run_jobs.py *)

Module RunJobs.

(** The longest run of digits at the head of [s], and what follows;
    on ASCII text the class [\d] is the digits 0 to 9. *)
Fixpoint span_digits (s : string) : string * string :=
  match s with
  | EmptyString => (EmptyString, EmptyString)
  | String c rest =>
      if PyStr.is_ascii_digit c then
        let '(digits, tail) := span_digits rest in (String c digits, tail)
      else (EmptyString, s)
  end.

(** [s] without the leading [prefix], when it starts with it. *)
Fixpoint strip_prefix (prefix s : string) : option string :=
  match prefix, s with
  | EmptyString, _ => Some s
  | String a prefix', String b s' =>
      if Ascii.eqb a b then strip_prefix prefix' s' else None
  | String _ _, EmptyString => None
  end.

(** [batch_(\d+)\.json] matched at the head of [s], giving group 1.
    [\d+] is greedy; giving back digits cannot help, as the character
    after the group must be a period. *)
Definition match_batch_here (s : string) : option string :=
  match strip_prefix "batch_" s with
  | None => None
  | Some rest =>
      let '(digits, tail) := span_digits rest in
      if String.eqb digits "" then None
      else if PyStr.startswith ".json" tail then Some digits
      else None
  end.

(** [re.search(r"batch_(\d+)\.json", config_file)]: the match at the
    lowest position; the result is [match.group(1)]. *)
Fixpoint search_batch (s : string) : option string :=
  match match_batch_here s with
  | Some batch_id => Some batch_id
  | None =>
      match s with
      | EmptyString => None
      | String _ rest => search_batch rest
      end
  end.

Inductive log_level : Type := DEBUG | INFO.

(** What the command does to the outside, in order. *)
Inductive event : Type :=
| Makedirs (path : string)
| SetupLogging (filename : string) (level : log_level)
| LogInfo (text : string)
| JobRunnerInit (config_file output batch_id : string)
| JobRunnerRun (verbose : bool).

Definition cmd (A : Type) : Type := list event -> list event * result A.

Definition cret {A : Type} (a : A) : cmd A := fun log => (log, Ok a).

Definition cbind {A B : Type} (m : cmd A) (k : A -> cmd B) : cmd B :=
  fun log =>
    match m log with
    | (log', Ok a) => k a log'
    | (log', Raise e) => (log', Raise e)
    end.

Definition call {A : Type} (ev : event) (r : result A) : cmd A :=
  fun log => ((log ++ [ev])%list, r).

Definition throw {A : Type} (e : exn) : cmd A := fun log => (log, Raise e).

Definition lift {A : Type} (r : result A) : cmd A := fun log => (log, r).

Notation "'run' x <- m ; k" := (cbind m (fun x => k))
  (at level 10, x binder, m at level 100, k at level 200).

Section Collaborators.

(** [makedirs] and [setup_logging] act on directories and on the logging
    module; [JobRunner] is in jade/jobs/job_runner.py. [argv] is
    [sys.argv]. *)
Variable makedirs : string -> result unit.
Variable Runner : Type.
Variable JobRunner : string -> string -> string -> result Runner.
Variable runner_run_jobs : Runner -> bool -> result Z.
Variable argv : list string.

(** [run_jobs]: [Ok code] stands for the [sys.exit(code)] that ends the
    command, with [code] the [value] of what the runner returned. *)
Definition run_jobs (config_file output : string) (verbose : bool) : cmd Z :=
  match search_batch config_file with
  | None => throw (OtherError "AssertionError")
  | Some batch_id =>
      run _ <- call (Makedirs output) (makedirs output);
      let filename :=
        PyStr.path_join output ("run_jobs_batch_" ++ batch_id ++ ".log") in
      let level := if verbose then DEBUG else INFO in
      run _ <- call (SetupLogging filename level) (Ok tt);
      run cli <- lift (Utils.get_cli_string argv);
      run _ <- call (LogInfo cli) (Ok tt);
      run mgr <- call (JobRunnerInit config_file output batch_id)
                   (JobRunner config_file output batch_id);
      run ret <- call (JobRunnerRun verbose) (runner_run_jobs mgr verbose);
      cret ret
  end.

End Collaborators.

End RunJobs.

(** ** The rule of check_filename's docstring *)

Module FilenameRule.

Fixpoint all_valid_chars (s : string) : bool :=
  match s with
  | EmptyString => true
  | String c rest => Utils.in_filename_class c && all_valid_chars rest
  end.

(** The docstring's rule: only letters, numbers, underscore, hyphen and
    period, not empty, and not longer than [MAX_PATH_LENGTH]. *)
Definition valid (name : string) : bool :=
  all_valid_chars name
  && negb (String.eqb name "")
  && (Z.of_nat (String.length name) <=? Utils.MAX_PATH_LENGTH).

End FilenameRule.

(** ** Concrete states used in the examples *)

Module Fixtures.

(** A process with two new managers, at addresses 0 and 1. *)
Definition two_managers : Process.t :=
  fst (Process.new tt (fst (Process.new tt Process.start))).

(** Two [submit] calls on the manager at address 0, the process after
    them with the ids returned, and the state of that manager. *)
Definition two_submits : list (nat * string) := [(0%nat, "a.sh"); (0%nat, "b.sh")].

Definition after_two_submits : Process.t * list string :=
  default (two_managers, []) (Process.submits two_submits two_managers).

Definition resubmitted_manager : FakeManager.t :=
  default (FakeManager.__init__ tt) (Process.objects after_two_submits.1 !! 0%nat).

(** A directory holding a script "run.sh" with mode 0o644, under the
    umask 0o022; [fails] names the system calls that fail. *)
Definition old_script : Os.file :=
  {| Os.content := "echo old"; Os.st_mode := 420 |}.

Definition world_with_script (fails : Os.syscall -> bool) : Os.world :=
  {| Os.fs := {[ "run.sh" := old_script ]};
     Os.umask := 18;
     Os.faults := fails;
     Os.history := [];
     Os.short_write := 0;
     Os.rename_refused := false |}.

(** The same directory when every write fails after 5 characters. *)
Definition world_with_short_write : Os.world :=
  {| Os.fs := {[ "run.sh" := old_script ]};
     Os.umask := 18;
     Os.faults := fun c => match c with Os.SysWrite => true | _ => false end;
     Os.history := [];
     Os.short_write := 5;
     Os.rename_refused := false |}.

Definition remove_fails (c : Os.syscall) : bool :=
  match c with
  | Os.SysRemove => true
  | _ => false
  end.

Definition write_fails (c : Os.syscall) : bool :=
  match c with
  | Os.SysWrite => true
  | _ => false
  end.

(** Collaborators of [auto_config] whose post-process config loads but
    whose [JobPostProcess] constructor raises. *)
Definition load_ok (file : string) : result (string * string * gmap string string) :=
  Ok ("my.module", "MyClass", ∅).

Definition post_process_rejects (module class_name : string)
    (data : gmap string string) : result unit :=
  Raise (InvalidParameter "bad post-process config").

Definition post_process_accepts (module class_name : string)
    (data : gmap string string) : result unit :=
  Ok tt.

Definition one_job_config (pp : option JobConfiguration.PostProcessConfig)
  : JobConfiguration.t :=
  {| JobConfiguration.jobs := [ ∅ ]; JobConfiguration.post_process_config := pp |}.

Definition demo_auto_config (post_process : string -> string -> gmap string string -> result unit)
  : AutoConfig.cmd unit :=
  AutoConfig.auto_config load_ok post_process (fun _ => true) unit
    (fun _ => Ok tt) (fun _ _ pp => Ok (one_job_config pp)) (fun _ _ => Ok tt)
    "demo" "inputs" "config.json" (Some "pp.toml") false.

(** A manager holding the given results. *)
Definition manager_with (results : list (JobManagerBase.Result unit))
  : JobManagerBase.t unit :=
  JobManagerBase.mk (one_job_config None) "config.json" "out" "out/job-outputs"
    results "out/results".

(** [run_jobs] with a runner that returns the value 3. *)
Definition demo_run_jobs (config_file : string) : RunJobs.cmd Z :=
  RunJobs.run_jobs (fun _ => Ok tt) unit (fun _ _ _ => Ok tt) (fun _ _ => Ok 3)
    ["/usr/bin/jade"; "run-jobs"; config_file] config_file "out" false.

(** The same directory when [os.rename] is refused and changing a mode
    fails. *)
Definition world_rename_refused : Os.world :=
  {| Os.fs := {[ "run.sh" := old_script ]};
     Os.umask := 18;
     Os.faults := fun c => match c with Os.SysChmod => true | _ => false end;
     Os.history := [];
     Os.short_write := 0;
     Os.rename_refused := true |}.

(** A line function that puts a mark before every line. *)
Definition mark_line (line : string) : string := "# " ++ line.

End Fixtures.

(** * Properties *)

(** ** Strings *)

Section PyStrFacts.

Lemma lower_char_idempotent (c : ascii) :
  PyStr.lower_char (PyStr.lower_char c) = PyStr.lower_char c.
Proof.
  destruct c as [[] [] [] [] [] [] [] []]; vm_compute; reflexivity.
Qed.

Lemma lower_char_never_space (c : ascii) :
  c <> " "%char -> PyStr.lower_char c <> " "%char.
Proof.
  destruct c as [[] [] [] [] [] [] [] []]; vm_compute; congruence.
Qed.

Lemma lower_idempotent (s : string) : PyStr.lower (PyStr.lower s) = PyStr.lower s.
Proof.
  induction s as [|c s IH]; simpl; [reflexivity|].
  now rewrite lower_char_idempotent, IH.
Qed.

(** A string without spaces is left alone by [replace(" ", "_")]. *)
Lemma replace_space_lower (s : string) :
  PyStr.replace " " "_" (PyStr.lower (PyStr.replace " " "_" s))
  = PyStr.lower (PyStr.replace " " "_" s).
Proof.
  induction s as [|c s IH]; simpl; [reflexivity|].
  rewrite IH. f_equal.
  destruct (Ascii.eqb_spec c " ") as [->|Hc]; [reflexivity|].
  destruct (Ascii.eqb_spec (PyStr.lower_char c) " ") as [Hl|Hl]; [|reflexivity].
  now apply lower_char_never_space in Hc.
Qed.

(** [int(str(n)) == n] *)
Lemma int_str (n : Z) : PyStr.int (PyStr.str n) = Ok n.
Proof.
  unfold PyStr.int, PyStr.str.
  rewrite NilZero.isi.
  - now rewrite DecimalZ.of_to.
  - destruct n; simpl; try discriminate.
    intros [= H]. now apply DecimalPos.Unsigned.to_uint_nonnil in H.
  - destruct n; simpl; try discriminate.
    intros [= H]. now apply DecimalPos.Unsigned.to_uint_nonnil in H.
Qed.

Lemma str_inj (n m : Z) : PyStr.str n = PyStr.str m -> n = m.
Proof.
  intros H. pose proof (int_str n) as Hn. rewrite H, int_str in Hn. congruence.
Qed.

End PyStrFacts.

(** ** AutoRegressionParameters *)

Section AutoRegressionFacts.

Import AutoRegressionParameters.

Lemma create_name_idempotent (c : string) :
  _create_name (_create_name c) = _create_name c.
Proof.
  unfold _create_name. now rewrite replace_space_lower, lower_idempotent.
Qed.

(** What a round trip gives: the object built from the name. *)
Lemma deserialize_serialize (x : t) :
  deserialize (serialize x) = Ok (__init__ (_name x) (data x)).
Proof. reflexivity. Qed.

(** [name], [data] and [extension] survive the round trip. *)
Lemma roundtrip_name_data_extension (c d : string) :
  exists y, deserialize (serialize (__init__ c d)) = Ok y
    /\ name y = name (__init__ c d)
    /\ data y = data (__init__ c d)
    /\ extension y = extension (__init__ c d).
Proof.
  eexists. split; [apply deserialize_serialize|].
  cbn. repeat split. apply create_name_idempotent.
Qed.

(** C1 (evaluation at the failing input): for the parameters built from
    the country "United States", [serialize] stores the name under the
    key "country", so the object read back has country "united_states":
    the round trip does not give back the [country] field, while [name],
    [data] and [extension] are the same. *)
Theorem roundtrip_country_not_preserved :
  let x := __init__ "United States" "gdp.csv" in
  exists y, deserialize (serialize x) = Ok y
    /\ country x = "United States"
    /\ country y = "united_states"
    /\ country y <> country x
    /\ name y = name x /\ data y = data x /\ extension y = extension x.
Proof.
  eexists. split; [apply deserialize_serialize|].
  cbn. repeat split; try reflexivity. discriminate.
Qed.

End AutoRegressionFacts.

(** ** FakeManager *)

Section FakeManagerFacts.

Import Hpc FakeManager.

Lemma check_status_returns (m : t) (name id : option string) :
  exists st, check_status m name id = Ok (mkHpcJobInfo id "" st)
    /\ (st = NONE <-> _subprocess_mgr m = None)
    /\ (forall mgr, _subprocess_mgr m = Some mgr ->
          st = if SubprocessManager.in_progress mgr then RUNNING else COMPLETE).
Proof.
  unfold check_status. destruct (_subprocess_mgr m) as [mgr|] eqn:Hm.
  - destruct (SubprocessManager.in_progress mgr) eqn:Hp; eexists;
      (split; [reflexivity|]); (split; [split; discriminate|]);
      intros mgr' [= <-]; now rewrite Hp.
  - eexists. split; [reflexivity|]. split; [tauto|]. discriminate.
Qed.

(** C2 (the claim fails): after one [submit] on a new manager, the
    status reported for the id "999", which the manager never issued,
    is RUNNING, not NONE. *)
Lemma check_status_unknown_id_not_none :
  ~ (forall (m : t) (name id : option string),
       id <> _job_id m ->
       exists info, check_status m name id = Ok info /\ status info = NONE).
Proof.
  intros H.
  destruct (H (snd (fst (submit class_init (__init__ tt) "run.sh"))) None (Some "999"))
    as (info & Hinfo & Hst).
  - vm_compute. discriminate.
  - vm_compute in Hinfo. injection Hinfo as <-. discriminate.
Qed.

(** C2 (amended): for every manager state and every job id, known or
    not, [check_status] does not raise and returns an info carrying that
    id and an empty name; the status is NONE exactly when no [submit]
    has given the manager a subprocess, and otherwise RUNNING while the
    subprocess is in progress and COMPLETE once it is not, whatever the
    id. *)
Theorem check_status_total_ignores_id (m : t) (name id : option string) :
  exists info, check_status m name id = Ok info
    /\ job_id info = id
    /\ Hpc.name info = ""
    /\ (status info = NONE <-> _subprocess_mgr m = None)
    /\ (forall mgr, _subprocess_mgr m = Some mgr ->
          status info = if SubprocessManager.in_progress mgr
                        then RUNNING else COMPLETE)
    /\ (forall name' id', exists info',
          check_status m name' id' = Ok info' /\ status info' = status info).
Proof.
  destruct (check_status_returns m name id) as (st & Hst & Hnone & Hsome).
  exists (mkHpcJobInfo id "" st). repeat split; try assumption; try apply Hnone.
  intros name' id'.
  destruct (check_status_returns m name' id') as (st' & Hst' & _ & _).
  eexists. split; [exact Hst'|]. cbn.
  unfold check_status in Hst, Hst'.
  destruct (_subprocess_mgr m) as [mgr|];
    [destruct (SubprocessManager.in_progress mgr)|]; congruence.
Qed.

Lemma submit_sets_fields (c : class_state) (m : t) (f : string) :
  submit c m f =
    ({| next_job_id := next_job_id c + 1 |},
     {| _subprocess_mgr := Some (SubprocessManager.mk (Some f) true);
        _job_id := Some (PyStr.str (next_job_id c)) |},
     (GOOD, PyStr.str (next_job_id c), None)).
Proof. reflexivity. Qed.

End FakeManagerFacts.

(** ** Several managers in one process *)

Section ProcessFacts.

Import Hpc.

Lemma process_submit_some (a : nat) (f : string) (p : Process.t) (m : FakeManager.t) :
  Process.objects p !! a = Some m ->
  Process.submit a f p =
    Some ({| Process.cls :=
               {| FakeManager.next_job_id :=
                    FakeManager.next_job_id (Process.cls p) + 1 |};
             Process.objects :=
               <[a := {| FakeManager._subprocess_mgr :=
                           Some (SubprocessManager.mk (Some f) true);
                         FakeManager._job_id :=
                           Some (PyStr.str (FakeManager.next_job_id (Process.cls p))) |}]>
                 (Process.objects p) |},
          PyStr.str (FakeManager.next_job_id (Process.cls p))).
Proof. intros H. unfold Process.submit. now rewrite H. Qed.

Lemma process_submit_inv (a : nat) (f : string) (p p' : Process.t) (id : string) :
  Process.submit a f p = Some (p', id) ->
  id = PyStr.str (FakeManager.next_job_id (Process.cls p))
  /\ FakeManager.next_job_id (Process.cls p')
     = FakeManager.next_job_id (Process.cls p) + 1
  /\ dom (Process.objects p') = dom (Process.objects p)
  /\ (forall b, b <> a -> Process.objects p' !! b = Process.objects p !! b).
Proof.
  unfold Process.submit.
  destruct (Process.objects p !! a) as [m|] eqn:Hm; [|discriminate].
  cbn. intros [= <- <-]. cbn. repeat split.
  - apply set_eq. intros b. rewrite !elem_of_dom.
    destruct (decide (a = b)) as [<-|Hne].
    + rewrite lookup_insert_eq, Hm. split; eauto.
    + now rewrite lookup_insert_ne.
  - intros b Hb. now rewrite lookup_insert_ne.
Qed.

(** The ids returned by a run of [submit] calls are the decimal
    numerals of the counter's successive values. *)
Lemma submits_ids (calls : list (nat * string)) :
  forall (p p' : Process.t) (ids : list string),
    Process.submits calls p = Some (p', ids) ->
    length ids = length calls
    /\ forall (k : nat) (id : string),
         ids !! k = Some id ->
         id = PyStr.str (FakeManager.next_job_id (Process.cls p) + Z.of_nat k).
Proof.
  induction calls as [|[a f] rest IH]; intros p p' ids; cbn.
  - intros [= <- <-]. split; [reflexivity|]. intros k id. now rewrite lookup_nil.
  - destruct (Process.submit a f p) as [[p1 id1]|] eqn:Hs; [|discriminate].
    destruct (Process.submits rest p1) as [[p2 ids2]|] eqn:Hr; [|discriminate].
    intros [= <- <-].
    apply process_submit_inv in Hs as (-> & Hnext & _ & _).
    destruct (IH _ _ _ Hr) as (Hlen & Hids).
    split; [cbn; now rewrite Hlen|].
    intros [|k] id; cbn.
    + intros [= <-]. now rewrite Z.add_0_r.
    + intros Hk. rewrite (Hids _ _ Hk), Hnext. f_equal. lia.
Qed.

Lemma submits_total (calls : list (nat * string)) :
  forall p : Process.t,
    (forall a f, (a, f) ∈ calls -> is_Some (Process.objects p !! a)) ->
    is_Some (Process.submits calls p).
Proof.
  induction calls as [|[a f] rest IH]; intros p Hobj; cbn; [eauto|].
  destruct (Hobj a f) as [m Hm]; [left|].
  destruct (Process.submit a f p) as [[p1 id1]|] eqn:Hs.
  - apply process_submit_inv in Hs as (_ & _ & Hdom & _).
    destruct (IH p1) as [[p2 ids] ->]; [|eauto].
    intros b g Hb. apply elem_of_dom. rewrite Hdom. apply elem_of_dom.
    apply (Hobj b g). now right.
  - rewrite (process_submit_some _ _ _ _ Hm) in Hs. discriminate.
Qed.

Example two_managers_objects :
  Process.objects Fixtures.two_managers !! 0%nat = Some (FakeManager.__init__ tt)
  /\ Process.objects Fixtures.two_managers !! 1%nat = Some (FakeManager.__init__ tt).
Proof. vm_compute. split; reflexivity. Qed.

(** C3 (the claim fails): two [submit] calls on the same manager return
    the ids "1" and "2"; the mapping of [check_statuses] then has no
    entry for "1". *)
Lemma check_statuses_misses_earlier_id :
  ~ (forall (calls : list (nat * string)) (p p' : Process.t) (ids : list string)
            (k a : nat) (f id : string) (m : FakeManager.t),
       Process.submits calls p = Some (p', ids) ->
       calls !! k = Some (a, f) ->
       ids !! k = Some id ->
       Process.objects p' !! a = Some m ->
       exists st, FakeManager.check_statuses m = Ok st /\ is_Some (st !! Some id)).
Proof.
  intros H.
  pose (calls := [(0%nat, "a.sh"); (0%nat, "b.sh")]).
  destruct (Process.submits calls Fixtures.two_managers) as [[p' ids]|] eqn:Hrun;
    [|vm_compute in Hrun; discriminate].
  destruct (H calls Fixtures.two_managers p' ids 0%nat 0%nat "a.sh" "1"
              {| FakeManager._subprocess_mgr :=
                   Some (SubprocessManager.mk (Some "b.sh") true);
                 FakeManager._job_id := Some "2" |})
    as (st & Hst & [v Hv]); try reflexivity.
  - exact Hrun.
  - vm_compute in Hrun. now injection Hrun as <- <-.
  - vm_compute in Hrun. now injection Hrun as <- <-.
  - vm_compute in Hst. injection Hst as <-. vm_compute in Hv. discriminate.
Qed.

(** The mapping of [check_statuses] in any state of the manager. *)
Lemma check_statuses_value (m : FakeManager.t) :
  exists st,
    FakeManager.check_statuses m = Ok {[ FakeManager._job_id m := st ]}
    /\ (st = NONE <-> FakeManager._subprocess_mgr m = None)
    /\ (forall mgr, FakeManager._subprocess_mgr m = Some mgr ->
          st = if SubprocessManager.in_progress mgr then RUNNING else COMPLETE).
Proof.
  destruct (check_status_returns m None (FakeManager._job_id m))
    as (st & Hst & Hnone & Hsome).
  exists st. split; [|split; assumption].
  unfold FakeManager.check_statuses. now rewrite Hst.
Qed.

(** After a run of [submit] calls, a manager that was not called is as
    it was, and a manager that was called holds the id returned by the
    last call made on it. *)
Lemma job_id_after_submits (calls : list (nat * string)) :
  forall (p p' : Process.t) (ids : list string) (a : nat) (m' : FakeManager.t),
    Process.submits calls p = Some (p', ids) ->
    Process.objects p' !! a = Some m' ->
    ((a ∉ calls.*1) /\ Process.objects p !! a = Some m')
    \/ exists k f id,
         calls !! k = Some (a, f) /\ ids !! k = Some id
         /\ FakeManager._job_id m' = Some id
         /\ forall k' f', (k < k')%nat -> calls !! k' <> Some (a, f').
Proof.
  induction calls as [|[b f] rest IH]; intros p p' ids a m'; cbn [Process.submits].
  - intros [= <- <-] Hm. left. split; [apply not_elem_of_nil|exact Hm].
  - destruct (Process.submit b f p) as [[p1 id1]|] eqn:Hs; [|discriminate].
    destruct (Process.submits rest p1) as [[p2 ids2]|] eqn:Hr; [|discriminate].
    intros [= <- <-] Hm.
    destruct (IH _ _ _ _ _ Hr Hm) as [[Hnot Hm1]|(k & f0 & id & Hk & Hid & Hjob & Hlast)].
    + destruct (decide (a = b)) as [->|Hne].
      * right. exists 0%nat, f, id1.
        unfold Process.submit in Hs.
        destruct (Process.objects p !! b) as [m|]; [|discriminate].
        cbn in Hs. injection Hs as <- <-. cbn [Process.objects] in Hm1.
        rewrite lookup_insert_eq in Hm1. injection Hm1 as <-.
        repeat split. intros [|k'] f' Hlt; [lia|]. cbn. intros Hk'.
        apply Hnot. apply list_elem_of_fmap. exists (b, f'). split; [reflexivity|].
        eapply list_elem_of_lookup_2. exact Hk'.
      * left. apply process_submit_inv in Hs as (_ & _ & _ & Hother).
        split; [|now rewrite <- (Hother a Hne)].
        cbn. apply not_elem_of_cons. split; assumption.
    + right. exists (S k), f0, id. repeat split; try assumption.
      intros [|k'] f' Hlt; [lia|]. cbn. apply Hlast. lia.
Qed.

(** C3 (amended): in every state of a manager, [check_statuses] does not
    raise and returns a mapping with exactly one entry; its key is the
    manager's current [_job_id] and its value is the status that
    [check_status] reports: NONE exactly when the manager has no
    subprocess manager, else RUNNING while the subprocess is in progress
    and COMPLETE once it is not. After any run of [submit] calls in a
    process, a manager on which no call was made is as before; for a
    manager on which calls were made, the key is the id returned by the
    last of them, and the ids returned by its earlier calls have no
    entry. This holds whenever the manager is polled afterwards,
    whatever its subprocess has done since. *)
Theorem check_statuses_latest_id_only
    (calls : list (nat * string)) (p p' : Process.t) (ids : list string)
    (a : nat) (m' m'' : FakeManager.t) :
  Process.submits calls p = Some (p', ids) ->
  Process.objects p' !! a = Some m' ->
  FakeManager._job_id m'' = FakeManager._job_id m' ->
  exists st,
    FakeManager.check_statuses m'' = Ok {[ FakeManager._job_id m' := st ]}
    /\ (st = NONE <-> FakeManager._subprocess_mgr m'' = None)
    /\ (forall mgr, FakeManager._subprocess_mgr m'' = Some mgr ->
          st = if SubprocessManager.in_progress mgr then RUNNING else COMPLETE)
    /\ (a ∉ calls.*1 -> Process.objects p !! a = Some m')
    /\ (forall k f id,
          calls !! k = Some (a, f) -> ids !! k = Some id ->
          (forall k' f', (k < k')%nat -> calls !! k' <> Some (a, f')) ->
          FakeManager._job_id m' = Some id)
    /\ (forall k k' f f' id,
          calls !! k = Some (a, f) -> ids !! k = Some id ->
          (k < k')%nat -> calls !! k' = Some (a, f') ->
          ({[ FakeManager._job_id m' := st ]} : gmap (option string) HpcJobStatus)
            !! Some id = None).
Proof.
  intros Hrun Hm Hsame.
  destruct (check_statuses_value m'') as (st & Hst & Hnone & Hsome).
  rewrite Hsame in Hst.
  exists st. split; [exact Hst|]. split; [exact Hnone|]. split; [exact Hsome|].
  pose proof (job_id_after_submits calls p p' ids a m' Hrun Hm) as Hlast.
  destruct (submits_ids _ _ _ _ Hrun) as (_ & Hids).
  assert (Hin : forall k f, calls !! k = Some (a, f) -> a ∈ calls.*1).
  { intros k f Hk. apply list_elem_of_fmap. exists (a, f). split; [reflexivity|].
    eapply list_elem_of_lookup_2. exact Hk. }
  split; [|split].
  - intros Hnot. destruct Hlast as [[_ Hp]|(k & f & _ & Hk & _)]; [exact Hp|].
    now apply Hin in Hk.
  - intros k f id Hk Hid Hnone_later.
    destruct Hlast as [[Hnot _]|(k0 & f0 & id0 & Hk0 & Hid0 & Hjob & Hlast0)].
    { now apply Hin in Hk. }
    destruct (Nat.lt_trichotomy k k0) as [Hlt|[->|Hlt]].
    + now apply Hnone_later in Hk0.
    + congruence.
    + now apply Hlast0 in Hk.
  - intros k k' f f' id Hk Hid Hlt Hk'.
    destruct Hlast as [[Hnot _]|(k0 & f0 & id0 & Hk0 & Hid0 & Hjob & Hlast0)].
    { now apply Hin in Hk. }
    assert (k' <= k0)%nat.
    { destruct (Nat.le_gt_cases k' k0) as [|Hgt]; [assumption|].
      now apply Hlast0 in Hk'. }
    rewrite Hjob. apply lookup_singleton_ne.
    rewrite (Hids _ _ Hid), (Hids _ _ Hid0). intros [= Heq].
    apply str_inj in Heq. lia.
Qed.

Lemma check_statuses_latest_id_only_witness :
  exists st,
    FakeManager.check_statuses
      {| FakeManager._subprocess_mgr := Some (SubprocessManager.mk (Some "b.sh") false);
         FakeManager._job_id := Some "2" |}
    = Ok {[ FakeManager._job_id Fixtures.resubmitted_manager := st ]}
    /\ (st = NONE <-> Some (SubprocessManager.mk (Some "b.sh") false) = None)
    /\ (forall mgr, Some (SubprocessManager.mk (Some "b.sh") false) = Some mgr ->
          st = if SubprocessManager.in_progress mgr then RUNNING else COMPLETE)
    /\ (0%nat ∉ Fixtures.two_submits.*1 ->
        Process.objects Fixtures.two_managers !! 0%nat
        = Some Fixtures.resubmitted_manager)
    /\ (forall k f id,
          Fixtures.two_submits !! k = Some (0%nat, f) ->
          Fixtures.after_two_submits.2 !! k = Some id ->
          (forall k' f', (k < k')%nat -> Fixtures.two_submits !! k' <> Some (0%nat, f')) ->
          FakeManager._job_id Fixtures.resubmitted_manager = Some id)
    /\ (forall k k' f f' id,
          Fixtures.two_submits !! k = Some (0%nat, f) ->
          Fixtures.after_two_submits.2 !! k = Some id ->
          (k < k')%nat -> Fixtures.two_submits !! k' = Some (0%nat, f') ->
          ({[ FakeManager._job_id Fixtures.resubmitted_manager := st ]}
             : gmap (option string) HpcJobStatus) !! Some id = None).
Proof.
  apply (check_statuses_latest_id_only Fixtures.two_submits Fixtures.two_managers
           Fixtures.after_two_submits.1 Fixtures.after_two_submits.2 0
           Fixtures.resubmitted_manager
           {| FakeManager._subprocess_mgr :=
                Some (SubprocessManager.mk (Some "b.sh") false);
              FakeManager._job_id := Some "2" |}).
  - reflexivity.
  - reflexivity.
  - reflexivity.
Defined.

Example earlier_id_has_no_entry :
  FakeManager.check_statuses Fixtures.resubmitted_manager
  = Ok {[ Some "2" := RUNNING ]}
  /\ Fixtures.after_two_submits.2 = ["1"; "2"]
  /\ ({[ Some "2" := RUNNING ]} : gmap (option string) HpcJobStatus) !! Some "1" = None.
Proof. vm_compute. repeat split. Qed.

(** C4 (the claim fails): with two managers in a new process, the next
    [submit] on the second returns "1"; after one [submit] on the first
    it returns "2". *)
Lemma submit_changes_id_of_other_instance :
  ~ (forall (p pa : Process.t) (a b : nat) (fa fb ida : string),
       a <> b ->
       is_Some (Process.objects p !! a) ->
       is_Some (Process.objects p !! b) ->
       Process.submit a fa p = Some (pa, ida) ->
       snd <$> Process.submit b fb pa = snd <$> Process.submit b fb p).
Proof.
  intros H.
  destruct (Process.submit 0 "a.sh" Fixtures.two_managers) as [[pa ida]|] eqn:Ha;
    [|vm_compute in Ha; discriminate].
  specialize (H Fixtures.two_managers pa 0%nat 1%nat "a.sh" "b.sh" ida).
  vm_compute in Ha. injection Ha as <- <-.
  assert (Hne : 0%nat <> 1%nat) by discriminate.
  specialize (H Hne). vm_compute in H.
  assert (Some "2" = Some "1") as [=]. apply H; eauto.
Qed.

(** C4 (amended): the id counter is one cell of the class, shared by all
    FakeManager instances of the process. For two distinct managers A
    and B, [A.submit] leaves B's own attributes as they were, and moves
    the id that [B.submit] returns next from the decimal numeral of the
    counter to that of the counter plus one, a different id. *)
Theorem submit_advances_shared_counter
    (p : Process.t) (a b : nat) (fa fb : string) (ma mb : FakeManager.t) :
  a <> b ->
  Process.objects p !! a = Some ma ->
  Process.objects p !! b = Some mb ->
  exists (pa : Process.t) (ida : string),
    Process.submit a fa p = Some (pa, ida)
    /\ Process.objects pa !! b = Some mb
    /\ snd <$> Process.submit b fb p
       = Some (PyStr.str (FakeManager.next_job_id (Process.cls p)))
    /\ snd <$> Process.submit b fb pa
       = Some (PyStr.str (FakeManager.next_job_id (Process.cls p) + 1))
    /\ snd <$> Process.submit b fb pa <> snd <$> Process.submit b fb p.
Proof.
  intros Hab Ha Hb.
  eexists _, _. split; [apply (process_submit_some _ _ _ _ Ha)|].
  assert (Hb' : forall m, <[a := m]> (Process.objects p) !! b = Some mb)
    by (intros m; now rewrite lookup_insert_ne).
  split; [apply Hb'|].
  rewrite (process_submit_some _ fb _ _ Hb).
  erewrite (process_submit_some b fb); [|apply Hb'].
  cbn. repeat split. intros [= H]. apply str_inj in H. lia.
Qed.

Lemma submit_advances_shared_counter_witness :
  exists (pa : Process.t) (ida : string),
    Process.submit 0 "a.sh" Fixtures.two_managers = Some (pa, ida)
    /\ Process.objects pa !! 1%nat = Some (FakeManager.__init__ tt)
    /\ snd <$> Process.submit 1 "b.sh" Fixtures.two_managers
       = Some (PyStr.str (FakeManager.next_job_id (Process.cls Fixtures.two_managers)))
    /\ snd <$> Process.submit 1 "b.sh" pa
       = Some (PyStr.str (FakeManager.next_job_id (Process.cls Fixtures.two_managers) + 1))
    /\ snd <$> Process.submit 1 "b.sh" pa
       <> snd <$> Process.submit 1 "b.sh" Fixtures.two_managers.
Proof.
  apply (submit_advances_shared_counter Fixtures.two_managers 0 1 "a.sh" "b.sh"
           (FakeManager.__init__ tt) (FakeManager.__init__ tt)).
  - lia.
  - reflexivity.
  - reflexivity.
Defined.

(** C9: in one process, whatever managers the calls are made on, a run
    of [submit] calls returns one id per call, and read as integers the
    ids are strictly increasing: a later call's id is greater than any
    earlier call's id. *)
Theorem submit_ids_strictly_increasing
    (calls : list (nat * string)) (p : Process.t) :
  Forall (fun c => is_Some (Process.objects p !! c.1)) calls ->
  exists (p' : Process.t) (ids : list string),
    Process.submits calls p = Some (p', ids)
    /\ length ids = length calls
    /\ forall (i j : nat) (idi idj : string),
         (i < j)%nat -> ids !! i = Some idi -> ids !! j = Some idj ->
         exists zi zj : Z,
           PyStr.int idi = Ok zi /\ PyStr.int idj = Ok zj /\ zi < zj.
Proof.
  intros Hobj.
  destruct (submits_total calls p) as [[p' ids] Hrun].
  { intros a f Hin. rewrite Forall_forall in Hobj. apply (Hobj _ Hin). }
  exists p', ids. split; [exact Hrun|].
  destruct (submits_ids _ _ _ _ Hrun) as (Hlen & Hids).
  split; [exact Hlen|].
  intros i j idi idj Hij Hi Hj.
  rewrite (Hids _ _ Hi), (Hids _ _ Hj), !int_str.
  eexists _, _. repeat split. lia.
Qed.

Lemma submit_ids_strictly_increasing_witness :
  exists (p' : Process.t) (ids : list string),
    Process.submits [(0%nat, "a.sh"); (1%nat, "b.sh"); (0%nat, "c.sh")]
      Fixtures.two_managers = Some (p', ids)
    /\ length ids = 3%nat
    /\ forall (i j : nat) (idi idj : string),
         (i < j)%nat -> ids !! i = Some idi -> ids !! j = Some idj ->
         exists zi zj : Z,
           PyStr.int idi = Ok zi /\ PyStr.int idj = Ok zj /\ zi < zj.
Proof.
  apply (submit_ids_strictly_increasing
           [(0%nat, "a.sh"); (1%nat, "b.sh"); (0%nat, "c.sh")] Fixtures.two_managers).
  repeat constructor; vm_compute; eauto.
Defined.

End ProcessFacts.

(** ** create_script and create_submission_script *)

Section ScriptFacts.

Import Os.

Lemma join_two (sep a b : string) : PyStr.join sep [a; b] = a ++ sep ++ b.
Proof. reflexivity. Qed.

Lemma bind_ok {A B : Type} (m : M A) (k : A -> M B) (w w' : world) (a : A) :
  m w = (w', Ok a) -> bind m k w = k a w'.
Proof. intros H. unfold bind. now rewrite H. Qed.

Lemma bind_raise {A B : Type} (m : M A) (k : A -> M B) (w w' : world) (e : exn) :
  m w = (w', Raise e) -> bind m k w = (w', Raise e).
Proof. intros H. unfold bind. now rewrite H. Qed.








Example replace_goes_through_absent_file :
  let '(w', r) := FakeManagerScript.create_submission_script
                    "job" "echo new" "run.sh" "."
                    (Fixtures.world_with_script no_faults) in
  r = Ok tt
  /\ (history w' !! 0%nat) ≫= (fun snap => snap !! "run.sh") = None
  /\ content <$> ((history w' !! 1%nat) ≫= (fun snap => snap !! "run.sh")) = Some ""
  /\ fs w' !! "run.sh"
     = Some {| content := "#!/bin/bash" ++ String "010" "echo new"; st_mode := 484 |}.
Proof. vm_compute. repeat split. Qed.

Example failed_write_loses_old_content :
  let '(w', r) := FakeManagerScript.create_submission_script
                    "job" "echo new" "run.sh" "."
                    (Fixtures.world_with_script Fixtures.write_fails) in
  r = Raise (OSError "write")
  /\ fs w' !! "run.sh" = Some {| content := ""; st_mode := 420 |}.
Proof. vm_compute. repeat split. Qed.






Example short_write_leaves_a_prefix :
  fs (FakeManagerScript.create_submission_script "job" "echo new" "run.sh" "."
        Fixtures.world_with_short_write).1 !! "run.sh"
  = Some {| content := "#!/bi"; st_mode := 420 |}.
Proof. reflexivity. Qed.

Example script_written_when_nothing_fails :
  (FakeManagerScript.create_submission_script "job" "echo new" "run.sh" "."
     (Fixtures.world_with_script no_faults)).2 = Ok tt
  /\ fs (FakeManagerScript.create_submission_script "job" "echo new" "run.sh" "."
           (Fixtures.world_with_script no_faults)).1 !! "run.sh"
     = Some {| content := "#!/bin/bash" ++ String "010" "echo new"; st_mode := 484 |}.
Proof. split; reflexivity. Qed.

End ScriptFacts.

(** ** The results summary *)

Section SummaryFacts.

Import JobManagerBase.

Context {time : Type}.

Lemma count_job_fold (results : list (Result time)) :
  forall s f : Z,
    fold_left count_job results (s, f)
    = (s + Z.of_nat (length (filter (fun r => status r = 0) results)),
       f + Z.of_nat (length (filter (fun r => status r <> 0) results))).
Proof.
  induction results as [|r rest IH]; intros s f; cbn [fold_left].
  - cbn. f_equal; lia.
  - unfold count_job at 2. rewrite !filter_cons.
    destruct (Z.eqb_spec (status r) 0) as [H0|H0].
    + rewrite IH, decide_True, decide_False by tauto. cbn [length]. f_equal; lia.
    + rewrite IH, decide_False, decide_True by tauto. cbn [length]. f_equal; lia.
Qed.

Lemma filter_status_partition (results : list (Result time)) :
  Nat.add (length (filter (fun r => status r = 0) results))
          (length (filter (fun r => status r <> 0) results))
  = length results.
Proof.
  induction results as [|r rest IH]; [reflexivity|].
  rewrite !filter_cons.
  destruct (decide (status r = 0)).
  - rewrite decide_False by tauto. cbn [length]. lia.
  - rewrite decide_True by tauto. cbn [length]. lia.
Qed.

(** C6: for every manager and every stored list of results, the dict of
    [get_results_summmary] has [num_jobs] equal to the configuration's
    job count, [num_complete] the number of stored results,
    [num_successful] the number of results of status 0 and [num_failed]
    the number of results of another status, so the last two add up to
    [num_complete]; the manager, and with it the stored results, is the
    same after the call. *)
Theorem get_results_summmary_counts (self : t time) :
  exists summary : gmap string Z,
    get_results_summmary self = (self, summary)
    /\ get_completed_results (get_results_summmary self).1 = _results self
    /\ summary !! "num_jobs"
       = Some (JobConfiguration.get_num_jobs (_config self))
    /\ summary !! "num_complete" = Some (Z.of_nat (length (_results self)))
    /\ summary !! "num_successful"
       = Some (Z.of_nat (length (filter (fun r => status r = 0) (_results self))))
    /\ summary !! "num_failed"
       = Some (Z.of_nat (length (filter (fun r => status r <> 0) (_results self))))
    /\ Z.of_nat (length (filter (fun r => status r = 0) (_results self)))
       + Z.of_nat (length (filter (fun r => status r <> 0) (_results self)))
       = Z.of_nat (length (_results self)).
Proof.
  unfold get_results_summmary. rewrite count_job_fold, !Z.add_0_l.
  eexists. split; [reflexivity|]. cbn [fst get_completed_results].
  repeat split.
  rewrite <- Nat2Z.inj_add, filter_status_partition. reflexivity.
Qed.

End SummaryFacts.

Example summary_example :
  (JobManagerBase.get_results_summmary
     (JobManagerBase.mk (Fixtures.one_job_config None) "config.json" "out"
        "out/job-outputs"
        [JobManagerBase.mkResult "job_0" 0 tt 0;
         JobManagerBase.mkResult "job_1" 1 tt 1;
         JobManagerBase.mkResult "job_2" 0 tt 0]
        "out/results")).2
  = <["num_jobs" := 1]> (<["num_complete" := 3]>
      (<["num_successful" := 2]> (<["num_failed" := 1]> ∅))).
Proof. reflexivity. Qed.

(** ** check_filename *)

Section FilenameFacts.

Import Utils.

(** The character written ["010"] is the newline, code 10. *)
Example newline_code : nat_of_ascii "010" = 10%nat.
Proof. reflexivity. Qed.

Lemma newline_not_in_class : in_filename_class "010" = false.
Proof. reflexivity. Qed.

Example check_filename_examples :
  check_filename "job_1.log" = Ok tt
  /\ raises (check_filename "")
  /\ raises (check_filename "a b")
  /\ raises (check_filename (String "010" "a")).
Proof. cbn. repeat split. Qed.

Lemma at_dollar_cases (s : string) :
  at_dollar s = true <-> s = "" \/ s = String "010" "".
Proof.
  destruct s as [|c [|d s]]; cbn.
  - split; [auto|reflexivity].
  - destruct (Ascii.eqb_spec c "010") as [->|Hc].
    + split; auto.
    + split; [discriminate|]. intros [[=]|[= ->]]. congruence.
  - split; [discriminate|]. intros [[=]|[=]].
Qed.

(** The regular expression accepts the names made only of valid
    characters, and the same names followed by one newline. *)
Lemma re_search_filename_spec (name : string) :
  re_search_filename name = true <->
  exists w, (name = w \/ name = w ++ String "010" "")
    /\ w <> "" /\ FilenameRule.all_valid_chars w = true.
Proof.
  unfold re_search_filename.
  induction name as [|c rest IH]; cbn [match_class_plus_dollar].
  - split; [discriminate|].
    intros (w & [<-|H] & Hne & _); [congruence|].
    destruct w; [congruence|discriminate].
  - rewrite andb_true_iff, orb_true_iff, IH, at_dollar_cases. split.
    + intros (Hc & [(w & Hw & Hne & Hall)|[->| ->]]).
      * exists (String c w). split.
        { destruct Hw as [->| ->]; [left|right]; reflexivity. }
        split; [discriminate|]. cbn. now rewrite Hc, Hall.
      * exists (String c ""). split; [now left|].
        split; [discriminate|]. cbn. now rewrite Hc.
      * exists (String c ""). split; [now right|].
        split; [discriminate|]. cbn. now rewrite Hc.
    + intros (w & Hw & Hne & Hall).
      destruct w as [|d w]; [congruence|].
      cbn in Hall. apply andb_true_iff in Hall as [Hd Hall].
      assert (c = d /\ (rest = w \/ rest = w ++ String "010" "")) as [<- Hrest].
      { destruct Hw as [Hw|Hw]; cbn in Hw; injection Hw as -> ->; auto. }
      split; [exact Hd|].
      destruct w as [|e w].
      * right. destruct Hrest as [->| ->]; auto.
      * left. exists (String e w). split; [exact Hrest|]. split; [discriminate|exact Hall].
Qed.

(** When [check_filename] returns normally. *)
Lemma check_filename_ok_iff (name : string) :
  check_filename name = Ok tt <->
  (exists w, (name = w \/ name = w ++ String "010" "")
     /\ w <> "" /\ FilenameRule.all_valid_chars w = true)
  /\ Z.of_nat (String.length name) <= MAX_PATH_LENGTH.
Proof.
  rewrite <- re_search_filename_spec. unfold check_filename.
  destruct (re_search_filename name); cbn [negb].
  - destruct (Z.gtb_spec (Z.of_nat (String.length name)) MAX_PATH_LENGTH).
    + split; [discriminate|]. intros [_ H']. lia.
    + split; [|reflexivity]. intros _. split; [reflexivity|lia].
  - split; [discriminate|]. intros [[=] _].
Qed.

(** C7 (evaluation at the failing input): the name made of the letter
    "a" and a newline holds a character outside the valid set, and
    [check_filename] returns normally on it: [$] also matches just
    before a final newline. *)
Theorem check_filename_accepts_trailing_newline :
  let name := String "a" (String "010" "") in
  check_filename name = Ok tt
  /\ in_filename_class "010" = false
  /\ FilenameRule.all_valid_chars name = false
  /\ FilenameRule.valid name = false.
Proof. cbn zeta. repeat split. Qed.

End FilenameFacts.

(** ** auto_config *)

Section AutoConfigFacts.

Import AutoConfig.

Variable load_config_from_file :
  string -> result (string * string * gmap string string).
Variable JobPostProcess :
  string -> string -> gmap string string -> result unit.
Variable is_registered : string -> bool.
Variable CLI : Type.
Variable get_extension_class : string -> result CLI.
Variable cli_auto_config :
  CLI -> string -> option JobConfiguration.PostProcessConfig
  -> result JobConfiguration.t.
Variable dump : JobConfiguration.t -> string -> result unit.

Local Abbreviation auto_config' :=
  (auto_config load_config_from_file JobPostProcess is_registered CLI
     get_extension_class cli_auto_config dump).

(** C8: when a post-process config file is given and loading it or
    constructing the [JobPostProcess] object raises, [auto_config] ends
    with that exception after the logging set-up, the load and (if the
    load returned) the construction: nothing is printed, the extension's
    auto-configuration is not run and [config.dump] is not reached. *)
Theorem auto_config_validates_before_dump
    (extension inputs config_file file : string) (verbose : bool)
    (e : exn) (log0 : list event) :
  (load_config_from_file file = Raise e
   \/ exists module class_name data,
        load_config_from_file file = Ok (module, class_name, data)
        /\ JobPostProcess module class_name data = Raise e) ->
  exists events : list event,
    auto_config' extension inputs config_file (Some file) verbose log0
      = ((log0 ++ events)%list, Raise e)
    /\ Forall (fun ev => is_dump ev = false) events
    /\ (events = [SetupLogging "auto_config" (if verbose then DEBUG else WARNING); LoadPostProcessConfig file]
        \/ exists module class_name data,
             events = [SetupLogging "auto_config" (if verbose then DEBUG else WARNING);
                       LoadPostProcessConfig file;
                       ConstructJobPostProcess module class_name data]).
Proof.
  intros [Hload|(module & class_name & data & Hload & Hinit)];
    unfold auto_config, load_post_process, cbind, call; rewrite Hload.
  - eexists. split; [now rewrite <- app_assoc|].
    split; [repeat constructor|now left].
  - rewrite Hinit. eexists. split; [now rewrite <- !app_assoc|].
    split; [repeat constructor|right; eauto].
Qed.

End AutoConfigFacts.

Lemma auto_config_validates_before_dump_witness :
  exists events : list AutoConfig.event,
    Fixtures.demo_auto_config Fixtures.post_process_rejects []
      = (([] ++ events)%list, Raise (InvalidParameter "bad post-process config"))
    /\ Forall (fun ev => AutoConfig.is_dump ev = false) events
    /\ (events = [AutoConfig.SetupLogging "auto_config" AutoConfig.WARNING;
                  AutoConfig.LoadPostProcessConfig "pp.toml"]
        \/ exists module class_name data,
             events = [AutoConfig.SetupLogging "auto_config" AutoConfig.WARNING;
                       AutoConfig.LoadPostProcessConfig "pp.toml";
                       AutoConfig.ConstructJobPostProcess module class_name data]).
Proof.
  apply (auto_config_validates_before_dump Fixtures.load_ok
           Fixtures.post_process_rejects (fun _ => true) unit
           (fun _ => Ok tt) (fun _ _ pp => Ok (Fixtures.one_job_config pp))
           (fun _ _ => Ok tt) "demo" "inputs" "config.json" "pp.toml" false
           (InvalidParameter "bad post-process config") []).
  right. exists "my.module", "MyClass", ∅. split; reflexivity.
Defined.

(** With a post-process config that is accepted, the same command goes
    on to write the configuration. *)
Example auto_config_accepting_dumps :
  exists events,
    Fixtures.demo_auto_config Fixtures.post_process_accepts [] = (events, Ok tt)
    /\ Exists (fun ev => AutoConfig.is_dump ev = true) events.
Proof.
  eexists. split; [reflexivity|].
  do 7 apply Exists_cons_tl. apply Exists_cons_hd. reflexivity.
Qed.

(** ** create_chunks *)

Section ChunkFacts.

Import Utils.

Context {A : Type}.

(** For a positive step, [range(0, n, size)] has just enough elements
    to cover [n]. *)
Lemma range_length_cover (n size : Z) :
  0 <= n -> 0 < size ->
  let cnt := range_length 0 n size in
  0 <= cnt
  /\ n <= cnt * size
  /\ (0 < cnt -> (cnt - 1) * size < n).
Proof.
  intros Hn Hs. unfold range_length.
  destruct (Z.ltb_spec 0 size) as [_|]; [|lia].
  destruct (Z.ltb_spec 0 n) as [Hpos|Hzero]; cbn zeta; [|lia].
  replace (n - 0 - 1) with (n - 1) by lia.
  pose proof (Z.mul_div_le (n - 1) size Hs) as Hle.
  pose proof (Z.mul_succ_div_gt (n - 1) size Hs) as Hgt.
  assert (0 <= (n - 1) / size) by (apply Z.div_pos; lia).
  nia.
Qed.

(** With the bounds inside the list, the slice is a [take] after a
    [drop]. *)
Lemma slice_chunk (items : list A) (i size : Z) :
  0 <= i <= Z.of_nat (length items) -> 0 < size ->
  slice items i (i + size) = take (Z.to_nat size) (drop (Z.to_nat i) items).
Proof.
  intros Hi Hs. unfold slice, clamp_index.
  destruct (Z.ltb_spec i 0) as [|_]; [lia|].
  destruct (Z.ltb_spec (i + size) 0) as [|_]; [lia|].
  rewrite (Z.min_l i) by lia.
  destruct (Z.le_gt_cases (i + size) (Z.of_nat (length items))) as [Hin|Hout].
  - rewrite Z.min_l by lia. f_equal. lia.
  - rewrite Z.min_r by lia.
    rewrite !take_ge; [reflexivity| |]; rewrite length_drop; lia.
Qed.

Lemma chunks_concat (items : list A) (s cnt : nat) :
  concat (map (fun k => take s (drop (k * s) items)) (seq 0 cnt))
  = take (cnt * s) items.
Proof.
  induction cnt as [|c IH]; [reflexivity|].
  rewrite seq_S, map_app, concat_app, IH. cbn [map concat Nat.add].
  rewrite app_nil_r, take_take_drop. f_equal. lia.
Qed.

Lemma create_chunks_eq (items : list A) (size : Z) :
  0 < size ->
  create_chunks items size
  = Ok (map (fun k => take (Z.to_nat size) (drop (k * Z.to_nat size) items))
          (seq 0 (Z.to_nat (range_length 0 (Z.of_nat (length items)) size)))).
Proof.
  intros Hs. unfold create_chunks, range.
  destruct (Z.eqb_spec size 0) as [|_]; [lia|].
  cbn [rbind]. f_equal. rewrite map_map.
  apply map_ext_in. intros k Hk. apply in_seq in Hk.
  destruct (range_length_cover (Z.of_nat (length items)) size) as (Hc0 & _ & Hlast);
    [lia|lia|].
  assert (Z.of_nat k * size <= (range_length 0 (Z.of_nat (length items)) size - 1) * size)
    by (apply Z.mul_le_mono_nonneg_r; lia).
  rewrite slice_chunk by lia.
  f_equal. f_equal. rewrite Z.add_0_l, Z2Nat.inj_mul, Nat2Z.id by lia. reflexivity.
Qed.

(** C10: for every list and every positive size, [create_chunks] yields
    chunks whose concatenation, in order, is the list; each chunk is
    non-empty and at most [size] long, and each chunk but the last is
    exactly [size] long. *)
Theorem create_chunks_partition (items : list A) (size : Z) :
  0 < size ->
  exists chunks : list (list A),
    create_chunks items size = Ok chunks
    /\ concat chunks = items
    /\ Forall (fun c => 0 < Z.of_nat (length c) <= size) chunks
    /\ forall (i : nat) (c : list A),
         (S i < length chunks)%nat -> chunks !! i = Some c ->
         Z.of_nat (length c) = size.
Proof.
  intros Hs. eexists. split; [apply (create_chunks_eq items size Hs)|].
  destruct (range_length_cover (Z.of_nat (length items)) size) as (Hc0 & Hcover & Hlast);
    [lia|lia|].
  set (cnt := range_length 0 (Z.of_nat (length items)) size) in *.
  assert (Hchunk : forall k : nat, (k < Z.to_nat cnt)%nat ->
            Z.of_nat (k * Z.to_nat size) < Z.of_nat (length items)).
  { intros k Hk. rewrite Nat2Z.inj_mul, Z2Nat.id by lia.
    assert (Z.of_nat k * size <= (cnt - 1) * size)
      by (apply Z.mul_le_mono_nonneg_r; lia).
    lia. }
  split; [|split].
  - rewrite chunks_concat. apply take_ge.
    apply Nat2Z.inj_le. rewrite Nat2Z.inj_mul, !Z2Nat.id by lia. exact Hcover.
  - apply Forall_forall. intros c Hc.
    apply list_elem_of_fmap in Hc as (k & -> & Hk).
    apply list_elem_of_In, in_seq in Hk.
    specialize (Hchunk k ltac:(lia)).
    rewrite length_take, length_drop. lia.
  - intros i c Hi Hc. rewrite length_map, length_seq in Hi.
    rewrite list_lookup_fmap in Hc.
    destruct (seq 0 (Z.to_nat cnt) !! i) as [k|] eqn:Hk; [|discriminate].
    apply lookup_seq in Hk as [-> _]. cbn in Hc. injection Hc as <-.
    specialize (Hchunk (S i) ltac:(lia)).
    rewrite length_take, length_drop. cbn [Nat.add].
    rewrite Nat2Z.inj_mul, Z2Nat.id in Hchunk by lia.
    assert (Z.of_nat (i * Z.to_nat size) = Z.of_nat i * size)
      by (rewrite Nat2Z.inj_mul, Z2Nat.id; lia).
    lia.
Qed.

End ChunkFacts.

Lemma create_chunks_partition_witness :
  exists chunks : list (list Z),
    Utils.create_chunks [1; 2; 3; 4; 5; 6; 7] 3 = Ok chunks
    /\ concat chunks = [1; 2; 3; 4; 5; 6; 7]
    /\ Forall (fun c => 0 < Z.of_nat (length c) <= 3) chunks
    /\ forall (i : nat) (c : list Z),
         (S i < length chunks)%nat -> chunks !! i = Some c ->
         Z.of_nat (length c) = 3.
Proof.
  apply (create_chunks_partition [1; 2; 3; 4; 5; 6; 7] 3). lia.
Defined.

Example create_chunks_example :
  Utils.create_chunks [1; 2; 3; 4; 5; 6; 7] 3 = Ok [[1; 2; 3]; [4; 5; 6]; [7]].
Proof. reflexivity. Qed.

Example create_chunks_zero_size :
  Utils.create_chunks [1; 2; 3] 0
  = Raise (ValueError "range() arg 3 must not be zero").
Proof. reflexivity. Qed.

Example create_chunks_negative_size :
  Utils.create_chunks [1; 2; 3] (-2) = Ok [].
Proof. reflexivity. Qed.

(** * Further properties of the code *)

(** ** AutoRegressionParameters: what the round trip keeps *)

Section AutoRegressionMore.

Import AutoRegressionParameters.

(** X1: for every object made by the constructor, the round trip
    through [serialize] and [deserialize] returns an object with the
    same [name], [data] and [extension]; its [country] is the name of
    the original. *)
Theorem roundtrip_keeps_name (c d : string) :
  exists y, deserialize (serialize (__init__ c d)) = Ok y
    /\ name y = name (__init__ c d)
    /\ data y = data (__init__ c d)
    /\ extension y = extension (__init__ c d)
    /\ country y = name (__init__ c d).
Proof.
  exists (__init__ (_create_name c) d).
  split; [apply deserialize_serialize|].
  unfold name, __init__. cbn [_name data country].
  rewrite create_name_idempotent. repeat split.
Qed.

(** X2: [deserialize] returns exactly when the dict has the keys
    "country" and "data", and then builds the object from these two
    values; a missing "country" is reported first. No other entry is
    read: adding or changing the "extension" entry or any other key
    changes nothing. *)
Theorem deserialize_reads_two_keys (param : gmap string string) :
  (forall y, deserialize param = Ok y <->
     exists c d, param !! "country" = Some c /\ param !! "data" = Some d
                 /\ y = __init__ c d)
  /\ (param !! "country" = None -> deserialize param = Raise (KeyError "country"))
  /\ (is_Some (param !! "country") -> param !! "data" = None ->
      deserialize param = Raise (KeyError "data"))
  /\ (forall k v, k <> "country" -> k <> "data" ->
      deserialize (<[k := v]> param) = deserialize param).
Proof.
  unfold deserialize, getitem. repeat split.
  - destruct (param !! "country") as [c|]; cbn; [|discriminate].
    destruct (param !! "data") as [d|]; cbn; [|discriminate].
    intros [= <-]. eauto.
  - intros (c & d & -> & -> & ->). reflexivity.
  - intros ->. reflexivity.
  - intros [c ->] ->. reflexivity.
  - intros k v Hc Hd. now rewrite !lookup_insert_ne.
Qed.

(** X3: the round trip gives back the very same object exactly when the
    country is already in the form of a name, that is, when
    [_create_name] leaves it as it is. *)
Theorem roundtrip_exact_iff_normalised (c d : string) :
  deserialize (serialize (__init__ c d)) = Ok (__init__ c d)
  <-> _create_name c = c.
Proof.
  rewrite deserialize_serialize. cbn. split.
  - intros [= H _]. exact H.
  - intros H. unfold __init__. now rewrite !H.
Qed.

(** X4: one round trip is enough: the object read back serializes to
    the same dict as the original, and reading that dict gives the same
    object again. *)
Theorem roundtrip_stable (c d : string) :
  exists y,
    deserialize (serialize (__init__ c d)) = Ok y
    /\ serialize y = serialize (__init__ c d)
    /\ deserialize (serialize y) = Ok y.
Proof.
  exists (__init__ (_create_name c) d).
  split; [apply deserialize_serialize|]. split.
  - unfold serialize, __init__, extension. cbn [_name data].
    now rewrite create_name_idempotent.
  - rewrite deserialize_serialize. unfold __init__. cbn [_name data].
    now rewrite !create_name_idempotent.
Qed.

(** X5: for a country made of ASCII characters, the name of the object
    that the constructor makes has no space and no upper-case letter,
    is ASCII too, and is as long as the country. *)
Theorem name_is_normalised (c d : string) :
  PyStr.ascii_only c = true ->
  Forall (fun ch => ch <> " "%char /\ PyStr.is_ascii_upper ch = false)
    (list_ascii_of_string (name (__init__ c d)))
  /\ PyStr.ascii_only (name (__init__ c d)) = true
  /\ String.length (name (__init__ c d)) = String.length c.
Proof.
  unfold name, __init__. cbn [_name]. unfold _create_name.
  induction c as [|a c IH]; cbn [PyStr.ascii_only]; intros Hc;
    [repeat split; constructor|].
  apply andb_true_iff in Hc as [Ha Hc]. destruct (IH Hc) as (IHchars & IHascii & IHlen).
  cbn [PyStr.replace PyStr.lower list_ascii_of_string PyStr.ascii_only String.length].
  split; [|split; [|now rewrite IHlen]].
  - constructor; [|exact IHchars].
    clear -Ha. destruct a as [[] [] [] [] [] [] [] []]; vm_compute; split; congruence.
  - rewrite IHascii, andb_true_r.
    clear -Ha. destruct a as [[] [] [] [] [] [] [] []]; vm_compute in *; congruence.
Qed.

Lemma name_is_normalised_witness :
  Forall (fun ch => ch <> " "%char /\ PyStr.is_ascii_upper ch = false)
    (list_ascii_of_string (name (__init__ "United States" "gdp.csv")))
  /\ PyStr.ascii_only (name (__init__ "United States" "gdp.csv")) = true
  /\ String.length (name (__init__ "United States" "gdp.csv"))
     = String.length "United States".
Proof. apply (name_is_normalised "United States" "gdp.csv"). reflexivity. Defined.

End AutoRegressionMore.

(** ** FakeManager: scratch directory and runs of submit *)

Section FakeManagerMore.

(** X6: [get_local_scratch] never returns the empty string; a non-empty
    TMP wins, then a non-empty TEMP when TMP is unset or empty, and "."
    is what is left. *)
Theorem get_local_scratch_cases (self : FakeManager.t) (environ : gmap string string) :
  FakeManager.get_local_scratch self environ <> ""
  /\ (forall d, environ !! "TMP" = Some d -> d <> "" ->
      FakeManager.get_local_scratch self environ = d)
  /\ (environ !! "TMP" = None \/ environ !! "TMP" = Some "" ->
      (forall d, environ !! "TEMP" = Some d -> d <> "" ->
         FakeManager.get_local_scratch self environ = d)
      /\ (environ !! "TEMP" = None \/ environ !! "TEMP" = Some "" ->
          FakeManager.get_local_scratch self environ = ".")).
Proof.
  unfold FakeManager.get_local_scratch.
  destruct (environ !! "TMP") as [tmp|]; destruct (environ !! "TEMP") as [temp|];
    repeat match goal with
           | |- context [String.eqb ?x ""] => destruct (String.eqb_spec x "")
           end;
    subst; (split; [|split; [|intros Htmp; split]]); intros;
    repeat match goal with
           | H : _ \/ _ |- _ => destruct H
           | H : Some _ = Some _ |- _ => injection H as H
           end;
    subst; try discriminate; try congruence.
Qed.

Lemma submits_counter_and_heap (calls : list (nat * string)) :
  forall (p p' : Process.t) (ids : list string),
    Process.submits calls p = Some (p', ids) ->
    FakeManager.next_job_id (Process.cls p')
    = FakeManager.next_job_id (Process.cls p) + Z.of_nat (length calls)
    /\ dom (Process.objects p') = dom (Process.objects p)
    /\ forall b, b ∉ calls.*1 -> Process.objects p' !! b = Process.objects p !! b.
Proof.
  induction calls as [|[a f] rest IH]; intros p p' ids; cbn [Process.submits].
  - intros [= <- <-]. cbn. repeat split. lia.
  - destruct (Process.submit a f p) as [[p1 id1]|] eqn:Hs; [|discriminate].
    destruct (Process.submits rest p1) as [[p2 ids2]|] eqn:Hr; [|discriminate].
    intros [= <- <-].
    apply process_submit_inv in Hs as (_ & Hnext & Hdom & Hother).
    destruct (IH _ _ _ Hr) as (Hnext' & Hdom' & Hother').
    split; [rewrite Hnext', Hnext; cbn [length]; lia|].
    split; [congruence|].
    intros b Hb. cbn in Hb. apply not_elem_of_cons in Hb as [Hne Hb].
    rewrite Hother' by exact Hb. now apply Hother.
Qed.

(** X7: a run of [submit] calls on existing managers returns the decimal
    numerals of the counter's successive values, so no id is returned
    twice; afterwards the counter has advanced by the number of calls,
    no manager was created or lost, and the managers that were not
    called are as they were. *)
Theorem submits_consecutive_ids (calls : list (nat * string)) (p : Process.t) :
  Forall (fun c => is_Some (Process.objects p !! c.1)) calls ->
  exists (p' : Process.t) (ids : list string),
    Process.submits calls p = Some (p', ids)
    /\ ids = (fun k : nat =>
                PyStr.str (FakeManager.next_job_id (Process.cls p) + Z.of_nat k))
             <$> seq 0 (length calls)
    /\ NoDup ids
    /\ FakeManager.next_job_id (Process.cls p')
       = FakeManager.next_job_id (Process.cls p) + Z.of_nat (length calls)
    /\ dom (Process.objects p') = dom (Process.objects p)
    /\ forall b, b ∉ calls.*1 -> Process.objects p' !! b = Process.objects p !! b.
Proof.
  intros Hobj.
  destruct (submits_total calls p) as [[p' ids] Hrun].
  { intros a f Hin. rewrite Forall_forall in Hobj. apply (Hobj _ Hin). }
  exists p', ids. split; [exact Hrun|].
  destruct (submits_ids _ _ _ _ Hrun) as (Hlen & Hids).
  assert (Heq : ids = (fun k : nat =>
                PyStr.str (FakeManager.next_job_id (Process.cls p) + Z.of_nat k))
             <$> seq 0 (length calls)).
  { apply list_eq. intros k. rewrite list_lookup_fmap.
    destruct (ids !! k) as [id|] eqn:Hk.
    - rewrite (Hids _ _ Hk).
      assert (k < length calls)%nat by (rewrite <- Hlen; eapply lookup_lt_Some; eauto).
      rewrite (proj2 (lookup_seq 0 (length calls) k k)) by (split; [reflexivity|lia]).
      reflexivity.
    - apply lookup_ge_None in Hk.
      rewrite (proj2 (lookup_ge_None (seq 0 (length calls)) k)); [reflexivity|].
      rewrite length_seq. lia. }
  split; [exact Heq|]. split.
  - rewrite Heq. apply NoDup_fmap_2; [|apply NoDup_seq].
    intros i j Hij. apply str_inj in Hij. lia.
  - apply (submits_counter_and_heap _ _ _ _ Hrun).
Qed.

Lemma submits_consecutive_ids_witness :
  exists (p' : Process.t) (ids : list string),
    Process.submits [(0%nat, "a.sh"); (0%nat, "b.sh")] Fixtures.two_managers
      = Some (p', ids)
    /\ ids = (fun k : nat =>
                PyStr.str (FakeManager.next_job_id (Process.cls Fixtures.two_managers)
                           + Z.of_nat k))
             <$> seq 0 2
    /\ NoDup ids
    /\ FakeManager.next_job_id (Process.cls p')
       = FakeManager.next_job_id (Process.cls Fixtures.two_managers) + Z.of_nat 2
    /\ dom (Process.objects p') = dom (Process.objects Fixtures.two_managers)
    /\ forall b, b ∉ [(0%nat, "a.sh"); (0%nat, "b.sh")].*1 ->
         Process.objects p' !! b = Process.objects Fixtures.two_managers !! b.
Proof.
  apply (submits_consecutive_ids [(0%nat, "a.sh"); (0%nat, "b.sh")]
           Fixtures.two_managers).
  repeat constructor; vm_compute; eauto.
Defined.

End FakeManagerMore.

(** ** create_script: other modes and failures *)

Section ScriptMore.

Import Os.



Lemma keeps_env_throw {A : Type} (e : exn) : keeps_env (@throw A e).
Proof. intros w. split; reflexivity. Qed.







Lemma keeps_env_read_text (path : string) : keeps_env (read_text path).
Proof.
  intros w. unfold read_text.
  destruct (faults w SysOpen); [split; reflexivity|].
  destruct (fs w !! path); split; reflexivity.
Qed.

Lemma keeps_env_rename (src dst : string) : keeps_env (rename src dst).
Proof. intros w. unfold rename. destruct (fs w !! src); split; reflexivity. Qed.







(** X10: when the old file cannot be removed, [create_script] stops
    there: the exception goes to the caller and the directory, the old
    file included, is untouched. *)
Theorem create_script_remove_fails
    (w : world) (filename text : string) (executable : bool) (old : file) :
  faults w SysRemove = true ->
  fs w !! filename = Some old ->
  Utils.create_script filename text executable w = (w, Raise (OSError "remove")).
Proof.
  intros Hf Hold. unfold Utils.create_script.
  rewrite (bind_ok _ _ w w true).
  - apply bind_raise. unfold remove. now rewrite Hf.
  - unfold path_exists. now rewrite bool_decide_eq_true_2 by eauto.
Qed.

Lemma create_script_remove_fails_witness :
  Utils.create_script "run.sh" "echo new" true
    (Fixtures.world_with_script Fixtures.remove_fails)
  = (Fixtures.world_with_script Fixtures.remove_fails, Raise (OSError "remove")).
Proof.
  apply (create_script_remove_fails (Fixtures.world_with_script Fixtures.remove_fails)
           "run.sh" "echo new" true Fixtures.old_script); reflexivity.
Defined.





End ScriptMore.

(** ** The results summary as a function of the ledger *)

Section SummaryMore.

Import JobManagerBase.

Context {time : Type}.

Ltac summary_lookup :=
  repeat first [rewrite lookup_insert_eq
               |rewrite lookup_insert_ne by discriminate].

Lemma summary_value (self : t time) :
  (get_results_summmary self).2
  = <["num_jobs" := get_num_jobs self]>
      (<["num_complete" := Z.of_nat (length (_results self))]>
         (<["num_successful" :=
              Z.of_nat (length (filter (fun r => status r = 0) (_results self)))]>
            (<["num_failed" :=
                 Z.of_nat (length (filter (fun r => status r <> 0) (_results self)))]>
               ∅))).
Proof.
  unfold get_results_summmary. rewrite count_job_fold, !Z.add_0_l. reflexivity.
Qed.

(** X12: the summary does not depend on the order in which the results
    were stored: two managers with the same configuration whose result
    lists are permutations of each other give the same dict. *)
Theorem summary_order_independent (self1 self2 : t time) :
  _config self1 = _config self2 ->
  _results self1 ≡ₚ _results self2 ->
  (get_results_summmary self1).2 = (get_results_summmary self2).2.
Proof.
  intros Hc Hp. rewrite !summary_value. unfold get_num_jobs.
  now rewrite Hc, Hp.
Qed.

(** X13: [num_failed] is 0 exactly when every stored result has status
    0, and that is exactly when [num_successful] equals
    [num_complete]. *)
Theorem summary_no_failure_iff (self : t time) :
  ((get_results_summmary self).2 !! "num_failed" = Some 0
   <-> Forall (fun r => status r = 0) (_results self))
  /\ ((get_results_summmary self).2 !! "num_successful"
      = (get_results_summmary self).2 !! "num_complete"
      <-> Forall (fun r => status r = 0) (_results self)).
Proof.
  rewrite summary_value.
  pose proof (filter_status_partition (_results self)) as Hsum.
  assert (Hiff : length (filter (fun r => status r <> 0) (_results self)) = 0%nat
                 <-> Forall (fun r => status r = 0) (_results self)).
  { clear Hsum. induction (_results self) as [|r rest IH].
    - split; [constructor|reflexivity].
    - rewrite filter_cons, Forall_cons. destruct (decide (status r <> 0)) as [Hr|Hr].
      + cbn [length]. split; [discriminate|]. intros [? _]. contradiction.
      + rewrite IH. split; [|tauto]. intros H. split; [lia|exact H]. }
  split.
  - rewrite lookup_insert_ne, lookup_insert_ne, lookup_insert_ne, lookup_insert_eq
      by discriminate.
    rewrite <- Hiff. split; [intros [= H]; lia|intros ->; reflexivity].
  - rewrite (lookup_insert_ne _ "num_jobs" "num_successful") by discriminate.
    rewrite (lookup_insert_ne _ "num_complete" "num_successful") by discriminate.
    rewrite lookup_insert_eq.
    rewrite (lookup_insert_ne _ "num_jobs" "num_complete") by discriminate.
    rewrite lookup_insert_eq.
    rewrite <- Hiff. split; [intros [= H]; lia|intros H; f_equal; lia].
Qed.

(** X14: storing one more result adds one to [num_complete] and one to
    [num_successful] when its status is 0, to [num_failed] otherwise;
    the other entries of the summary stay as they were. *)
Theorem summary_after_append (self : t time) (r : Result time) :
  let self' := mk (_config self) (_config_file self) (_output self)
                 (_jobs_output self) (_results self ++ [r]) (_results_dir self) in
  let old := (get_results_summmary self).2 in
  let new := (get_results_summmary self').2 in
  new !! "num_jobs" = old !! "num_jobs"
  /\ new !! "num_complete" = Z.succ <$> old !! "num_complete"
  /\ (status r = 0 ->
      new !! "num_successful" = Z.succ <$> old !! "num_successful"
      /\ new !! "num_failed" = old !! "num_failed")
  /\ (status r <> 0 ->
      new !! "num_successful" = old !! "num_successful"
      /\ new !! "num_failed" = Z.succ <$> old !! "num_failed").
Proof.
  cbn zeta. rewrite !summary_value. cbn [_results _config get_num_jobs].
  rewrite !filter_app, !length_app, !filter_cons, !filter_nil.
  split; [reflexivity|].
  split; [summary_lookup; cbn; f_equal; lia|].
  split; intros Hr.
  - rewrite decide_True, decide_False by tauto.
    split; summary_lookup; cbn; f_equal; lia.
  - rewrite decide_False, decide_True by tauto.
    split; summary_lookup; cbn; f_equal; lia.
Qed.

End SummaryMore.

Lemma summary_order_independent_witness :
  (JobManagerBase.get_results_summmary
     (Fixtures.manager_with [JobManagerBase.mkResult "job_0" 0 tt 0;
                             JobManagerBase.mkResult "job_1" 1 tt 1])).2
  = (JobManagerBase.get_results_summmary
       (Fixtures.manager_with [JobManagerBase.mkResult "job_1" 1 tt 1;
                               JobManagerBase.mkResult "job_0" 0 tt 0])).2.
Proof.
  apply (summary_order_independent
           (Fixtures.manager_with [JobManagerBase.mkResult "job_0" 0 tt 0;
                                   JobManagerBase.mkResult "job_1" 1 tt 1])
           (Fixtures.manager_with [JobManagerBase.mkResult "job_1" 1 tt 1;
                                   JobManagerBase.mkResult "job_0" 0 tt 0])).
  - reflexivity.
  - apply Permutation_swap.
Defined.

(** ** auto_config: when the configuration is written *)

Section AutoConfigMore.

Import AutoConfig.

Variable load_config_from_file :
  string -> result (string * string * gmap string string).
Variable JobPostProcess :
  string -> string -> gmap string string -> result unit.
Variable is_registered : string -> bool.
Variable CLI : Type.
Variable get_extension_class : string -> result CLI.
Variable cli_auto_config :
  CLI -> string -> option JobConfiguration.PostProcessConfig
  -> result JobConfiguration.t.
Variable dump : JobConfiguration.t -> string -> result unit.

Local Abbreviation auto_config'' :=
  (auto_config load_config_from_file JobPostProcess is_registered CLI
     get_extension_class cli_auto_config dump).

(** Closes a goal [ev ∈ l -> _] when [ev] is no element of the list
    [l], whose elements start with other constructors. *)
Ltac not_among :=
  let Hin := fresh "Hin" in
  intros Hin;
  repeat (apply elem_of_cons in Hin as [Hin|Hin]; [discriminate|]);
  now apply elem_of_nil in Hin.

(** X15: [auto_config] reaches [config.dump] only after everything
    before it went well. If a dump of [config] to [file] is among the
    events of a run, then [file] is the [--config-file] argument, the
    extension is registered, a given post-process config was loaded and
    its [JobPostProcess] object constructed without an exception, and
    [config] is what the extension's [auto_config] returned for the
    inputs and that post-process config. *)
Theorem auto_config_dump_only_after_validation
    (extension inputs config_file : string) (pp_file : option string)
    (verbose : bool) (config : JobConfiguration.t) (file : string) :
  Dump config file
    ∈ (auto_config'' extension inputs config_file pp_file verbose []).1 ->
  file = config_file
  /\ is_registered extension = true
  /\ exists (pp : option JobConfiguration.PostProcessConfig) (cli : CLI),
       get_extension_class extension = Ok cli
       /\ cli_auto_config cli inputs pp = Ok config
       /\ match pp_file with
          | None => pp = None
          | Some f =>
              exists module class_name data,
                load_config_from_file f = Ok (module, class_name, data)
                /\ JobPostProcess module class_name data = Ok tt
                /\ pp = Some (JobConfiguration.mkPostProcess module class_name data)
          end.
Proof.
  unfold auto_config, load_post_process, cbind, call, cret, throw.
  destruct pp_file as [f|]; cbn.
  - destruct (load_config_from_file f) as [[[module class_name] data]|e] eqn:Hload;
      cbn; [|not_among].
    destruct (JobPostProcess module class_name data) as [[]|e] eqn:Hinit;
      cbn; [|not_among].
    destruct (is_registered extension) eqn:Hreg; cbn; [|not_among].
    destruct (get_extension_class extension) as [cli|e] eqn:Hcli; cbn; [|not_among].
    destruct (cli_auto_config cli inputs _) as [cfg|e] eqn:Hcfg; cbn; [|not_among].
    intros Hin.
    assert (Dump config file = Dump cfg config_file) as [= -> ->].
    { destruct (dump cfg config_file); cbn in Hin;
        repeat (apply elem_of_cons in Hin as [Hin|Hin]; [try discriminate; assumption|]);
        now apply elem_of_nil in Hin. }
    repeat split. eexists _, cli. repeat split; [exact Hcfg|]. eauto 10.
  - destruct (is_registered extension) eqn:Hreg; cbn; [|not_among].
    destruct (get_extension_class extension) as [cli|e] eqn:Hcli; cbn; [|not_among].
    destruct (cli_auto_config cli inputs None) as [cfg|e] eqn:Hcfg; cbn; [|not_among].
    intros Hin.
    assert (Dump config file = Dump cfg config_file) as [= -> ->].
    { destruct (dump cfg config_file); cbn in Hin;
        repeat (apply elem_of_cons in Hin as [Hin|Hin]; [try discriminate; assumption|]);
        now apply elem_of_nil in Hin. }
    repeat split. exists None, cli. repeat split; assumption.
Qed.

(** X16: when [auto_config] returns normally, it has written the
    configuration exactly once, to the [--config-file] path, and the
    last thing it did was to report that. *)
Theorem auto_config_success_dumps_once
    (extension inputs config_file : string) (pp_file : option string)
    (verbose : bool) (events : list event) :
  auto_config'' extension inputs config_file pp_file verbose [] = (events, Ok tt) ->
  exists (config : JobConfiguration.t) (before : list event),
    events = (before
              ++ [Dump config config_file;
                  PrintLine ("Dumped configuration to " ++ config_file ++ ".")])%list
    /\ Forall (fun ev => is_dump ev = false) before
    /\ dump config config_file = Ok tt.
Proof.
  unfold auto_config, load_post_process, cbind, call, cret, throw.
  destruct pp_file as [f|]; cbn.
  - destruct (load_config_from_file f) as [[[module class_name] data]|e];
      cbn; [|discriminate].
    destruct (JobPostProcess module class_name data) as [[]|e]; cbn; [|discriminate].
    destruct (is_registered extension); cbn; [|discriminate].
    destruct (get_extension_class extension) as [cli|e]; cbn; [|discriminate].
    destruct (cli_auto_config cli inputs _) as [cfg|e]; cbn; [|discriminate].
    destruct (dump cfg config_file) as [[]|e] eqn:Hdump; cbn; [|discriminate].
    intros [= <-]. exists cfg. eexists [_; _; _; _; _; _; _].
    split; [reflexivity|]. split; [repeat constructor|exact Hdump].
  - destruct (is_registered extension); cbn; [|discriminate].
    destruct (get_extension_class extension) as [cli|e]; cbn; [|discriminate].
    destruct (cli_auto_config cli inputs None) as [cfg|e]; cbn; [|discriminate].
    destruct (dump cfg config_file) as [[]|e] eqn:Hdump; cbn; [|discriminate].
    intros [= <-]. exists cfg. eexists [_; _; _; _; _].
    split; [reflexivity|]. split; [repeat constructor|exact Hdump].
Qed.

End AutoConfigMore.

Lemma auto_config_dump_only_after_validation_witness :
  "config.json" = "config.json"
  /\ (fun _ : string => true) "demo" = true
  /\ exists (pp : option JobConfiguration.PostProcessConfig) (cli : unit),
       (fun _ : string => Ok tt) "demo" = Ok cli
       /\ (fun (_ : unit) (_ : string) pp => Ok (Fixtures.one_job_config pp))
            cli "inputs" pp
          = Ok (Fixtures.one_job_config
                  (Some (JobConfiguration.mkPostProcess "my.module" "MyClass" ∅)))
       /\ exists module class_name data,
            Fixtures.load_ok "pp.toml" = Ok (module, class_name, data)
            /\ Fixtures.post_process_accepts module class_name data = Ok tt
            /\ pp = Some (JobConfiguration.mkPostProcess module class_name data).
Proof.
  apply (auto_config_dump_only_after_validation Fixtures.load_ok
           Fixtures.post_process_accepts (fun _ => true) unit
           (fun _ => Ok tt) (fun _ _ pp => Ok (Fixtures.one_job_config pp))
           (fun _ _ => Ok tt) "demo" "inputs" "config.json" (Some "pp.toml") false
           (Fixtures.one_job_config
              (Some (JobConfiguration.mkPostProcess "my.module" "MyClass" ∅)))
           "config.json").
  vm_compute. do 7 apply list_elem_of_further. apply list_elem_of_here.
Defined.

Lemma auto_config_success_dumps_once_witness :
  exists (config : JobConfiguration.t) (before : list AutoConfig.event),
    (Fixtures.demo_auto_config Fixtures.post_process_accepts []).1
    = (before
       ++ [AutoConfig.Dump config "config.json";
           AutoConfig.PrintLine ("Dumped configuration to " ++ "config.json" ++ ".")])%list
    /\ Forall (fun ev => AutoConfig.is_dump ev = false) before
    /\ (fun (_ : JobConfiguration.t) (_ : string) => Ok tt) config "config.json" = Ok tt.
Proof.
  apply (auto_config_success_dumps_once Fixtures.load_ok
           Fixtures.post_process_accepts (fun _ => true) unit
           (fun _ => Ok tt) (fun _ _ pp => Ok (Fixtures.one_job_config pp))
           (fun _ _ => Ok tt) "demo" "inputs" "config.json" (Some "pp.toml") false
           (Fixtures.demo_auto_config Fixtures.post_process_accepts []).1).
  reflexivity.
Defined.

(** ** run_jobs: the batch id and the exit status *)

Section RunJobsFacts.

Import RunJobs.

(** Every character of [s] is a decimal digit. *)
Local Abbreviation digits s :=
  (Forall (fun c => PyStr.is_ascii_digit c = true) (list_ascii_of_string s)).

Lemma append_nil_l (s : string) : "" ++ s = s.
Proof. reflexivity. Qed.

Lemma append_cons (c : ascii) (s t : string) : String c s ++ t = String c (s ++ t).
Proof. reflexivity. Qed.

Lemma strip_prefix_spec (prefix s rest : string) :
  strip_prefix prefix s = Some rest <-> s = prefix ++ rest.
Proof.
  revert s. induction prefix as [|a prefix IH]; intros s; cbn.
  - split; [now intros [= ->]|now intros ->].
  - destruct s as [|b s]; [split; discriminate|].
    destruct (Ascii.eqb_spec a b) as [<-|Hne].
    + rewrite IH. split; [now intros ->|now intros [= ->]].
    + split; [discriminate|]. intros [= ? _]. congruence.
Qed.

Lemma startswith_spec (prefix s : string) :
  PyStr.startswith prefix s = true <-> exists rest, s = prefix ++ rest.
Proof.
  revert s. induction prefix as [|a prefix IH]; intros s; cbn.
  - split; eauto.
  - destruct s as [|b s]; [split; [discriminate|intros [? [=]]]|].
    rewrite andb_true_iff, IH. split.
    + intros [Hab [rest ->]]. apply Ascii.eqb_eq in Hab as ->. eauto.
    + intros [rest [= -> ->]]. split; [apply Ascii.eqb_refl|eauto].
Qed.

Lemma span_digits_spec (s ds tail : string) :
  span_digits s = (ds, tail) -> s = ds ++ tail /\ digits ds.
Proof.
  revert ds tail. induction s as [|c s IH]; intros ds tail; cbn [span_digits].
  - intros [= <- <-]. split; [reflexivity|constructor].
  - destruct (PyStr.is_ascii_digit c) eqn:Hc.
    + destruct (span_digits s) as [ds' tail'].
      intros [= <- <-]. destruct (IH _ _ eq_refl) as [-> Hds].
      split; [reflexivity|]. cbn [list_ascii_of_string]. now constructor.
    + intros [= <- <-]. split; [reflexivity|constructor].
Qed.

Lemma span_digits_app (ds tail : string) :
  digits ds ->
  (forall c rest, tail = String c rest -> PyStr.is_ascii_digit c = false) ->
  span_digits (ds ++ tail) = (ds, tail).
Proof.
  intros Hds Htail. induction ds as [|c ds IH].
  - rewrite append_nil_l. destruct tail as [|c rest]; [reflexivity|].
    cbn [span_digits]. now rewrite (Htail c rest eq_refl).
  - rewrite append_cons. cbn [span_digits].
    cbn [list_ascii_of_string] in Hds. apply Forall_cons in Hds as [Hc Hds].
    now rewrite Hc, (IH Hds).
Qed.

Lemma match_batch_here_spec (s batch_id : string) :
  match_batch_here s = Some batch_id <->
  batch_id <> "" /\ digits batch_id
  /\ exists post, s = "batch_" ++ batch_id ++ ".json" ++ post.
Proof.
  unfold match_batch_here. split.
  - destruct (strip_prefix "batch_" s) as [rest|] eqn:Hp; [|discriminate].
    apply strip_prefix_spec in Hp as ->.
    destruct (span_digits rest) as [ds tail] eqn:Hspan.
    apply span_digits_spec in Hspan as [-> Hds].
    destruct (String.eqb_spec ds "") as [|Hne]; [discriminate|].
    destruct (PyStr.startswith ".json" tail) eqn:Hjson; [|discriminate].
    apply startswith_spec in Hjson as [post ->].
    intros [= <-]. repeat split; [assumption|assumption|]. now exists post.
  - intros (Hne & Hds & post & ->).
    rewrite (proj2 (strip_prefix_spec "batch_" _ (batch_id ++ ".json" ++ post)) eq_refl).
    rewrite span_digits_app; [|exact Hds|now intros c rest [= <- _]].
    destruct (String.eqb_spec batch_id "") as [|_]; [contradiction|].
    reflexivity.
Qed.

Lemma search_batch_some_inv (config_file batch_id : string) :
  search_batch config_file = Some batch_id ->
  batch_id <> "" /\ digits batch_id
  /\ exists pre post, config_file = pre ++ "batch_" ++ batch_id ++ ".json" ++ post.
Proof.
  induction config_file as [|c s IH].
  - cbn. discriminate.
  - cbn [search_batch].
    destruct (match_batch_here (String c s)) as [id|] eqn:Hhere.
    + intros [= ->]. apply match_batch_here_spec in Hhere as (Hne & Hds & post & ->).
      repeat split; [assumption|assumption|]. now exists "", post.
    + intros Hs. destruct (IH Hs) as (Hne & Hds & pre & post & ->).
      repeat split; [assumption|assumption|]. now exists (String c pre), post.
Qed.

(** X17: for a file name made of ASCII characters, the batch id that
    [run_jobs] takes from it is never empty, is made of decimal digits
    only, and stands in the name between "batch_" and ".json". *)
Theorem search_batch_sound (config_file batch_id : string) :
  PyStr.ascii_only config_file = true ->
  search_batch config_file = Some batch_id ->
  batch_id <> "" /\ digits batch_id
  /\ exists pre post, config_file = pre ++ "batch_" ++ batch_id ++ ".json" ++ post.
Proof.
  intros _ Hsearch.
  destruct (search_batch_some_inv _ _ Hsearch) as (Hne & Hds & pre & post & Hname).
  repeat split; [exact Hne|exact Hds|]. now exists pre, post.
Qed.

Lemma search_batch_sound_witness :
  "007" <> "" /\ digits "007"
  /\ exists pre post, "cfg/batch_007.json" = pre ++ "batch_" ++ "007" ++ ".json" ++ post.
Proof. apply (search_batch_sound "cfg/batch_007.json" "007"); reflexivity. Defined.

Lemma search_batch_finds (pre ds post : string) :
  ds <> "" -> digits ds ->
  is_Some (search_batch (pre ++ "batch_" ++ ds ++ ".json" ++ post))
  /\ search_batch ("batch_" ++ ds ++ ".json" ++ post) = Some ds.
Proof.
  intros Hne Hds.
  assert (Hhere : match_batch_here ("batch_" ++ ds ++ ".json" ++ post) = Some ds).
  { apply match_batch_here_spec. repeat split; [assumption|assumption|]. now exists post. }
  assert (Hhead : search_batch ("batch_" ++ ds ++ ".json" ++ post) = Some ds).
  { change ("batch_" ++ ds ++ ".json" ++ post)
      with (String "b" ("atch_" ++ ds ++ ".json" ++ post)) in *.
    cbn [search_batch]. now rewrite Hhere. }
  split; [|exact Hhead].
  induction pre as [|c pre IH]; [rewrite append_nil_l, Hhead; eauto|].
  rewrite append_cons. cbn [search_batch].
  destruct (match_batch_here (String c _)); [eauto|exact IH].
Qed.

(** X18: every file name that holds "batch_", then one or more decimal
    digits, then ".json" gives a batch id; when the name starts with
    that pattern the id is those digits. *)
Theorem search_batch_complete (pre ds post : string) :
  ds <> "" -> digits ds ->
  is_Some (search_batch (pre ++ "batch_" ++ ds ++ ".json" ++ post))
  /\ search_batch ("batch_" ++ ds ++ ".json" ++ post) = Some ds.
Proof.
  intros Hne Hds.
  assert (Hhere : match_batch_here ("batch_" ++ ds ++ ".json" ++ post) = Some ds).
  { apply match_batch_here_spec. repeat split; [assumption|assumption|]. now exists post. }
  assert (Hhead : search_batch ("batch_" ++ ds ++ ".json" ++ post) = Some ds).
  { change ("batch_" ++ ds ++ ".json" ++ post)
      with (String "b" ("atch_" ++ ds ++ ".json" ++ post)) in *.
    cbn [search_batch]. now rewrite Hhere. }
  split; [|exact Hhead].
  induction pre as [|c pre IH]; [rewrite append_nil_l, Hhead; eauto|].
  rewrite append_cons. cbn [search_batch].
  destruct (match_batch_here (String c _)); [eauto|exact IH].
Qed.

Lemma search_batch_complete_witness :
  is_Some (search_batch ("cfg/" ++ "batch_" ++ "12" ++ ".json" ++ ".bak"))
  /\ search_batch ("batch_" ++ "12" ++ ".json" ++ ".bak") = Some "12".
Proof.
  apply (search_batch_complete "cfg/" "12" ".bak").
  - discriminate.
  - repeat constructor.
Defined.

Variable makedirs : string -> result unit.
Variable Runner : Type.
Variable JobRunner : string -> string -> string -> result Runner.
Variable runner_run_jobs : Runner -> bool -> result Z.
Variable argv : list string.

(** X19: for a file name made of ASCII characters, [run_jobs] fails
    its assertion, before it has made a directory or touched anything
    else, exactly when the name holds no "batch_", digits, ".json". *)
Theorem run_jobs_assertion_iff (config_file output : string) (verbose : bool) :
  PyStr.ascii_only config_file = true ->
  (RunJobs.run_jobs makedirs Runner JobRunner runner_run_jobs argv
     config_file output verbose []
   = ([], Raise (OtherError "AssertionError"))
   <-> ~ exists pre ds post,
           ds <> "" /\ digits ds
           /\ config_file = pre ++ "batch_" ++ ds ++ ".json" ++ post).
Proof.
  intros _. unfold run_jobs. split.
  - intros Hrun (pre & ds & post & Hne & Hds & ->).
    destruct (search_batch_finds pre ds post Hne Hds) as [[id Hid] _].
    rewrite Hid in Hrun. unfold cbind, call in Hrun.
    destruct (makedirs output); cbn in Hrun.
    + destruct (Utils.get_cli_string argv); cbn in Hrun; [|discriminate].
      destruct (JobRunner _ output id); cbn in Hrun; [|discriminate].
      destruct (runner_run_jobs _ verbose); discriminate.
    + discriminate.
  - intros Hnone.
    destruct (search_batch config_file) as [id|] eqn:Hid; [|reflexivity].
    exfalso. apply Hnone.
    destruct (search_batch_some_inv _ _ Hid) as (Hne & Hds & pre & post & ->).
    now exists pre, id, post.
Qed.

(** X20: when [run_jobs] ends with [sys.exit(code)], [code] is the value
    that the runner's [run_jobs] returned; the runner was built with the
    config file, the output directory and the batch id of the file
    name, after the output directory was made and logging was set up
    with the file "run_jobs_batch_<id>.log" of that directory. *)
Theorem run_jobs_exit_code
    (config_file output : string) (verbose : bool) (events : list event) (code : Z) :
  RunJobs.run_jobs makedirs Runner JobRunner runner_run_jobs argv
    config_file output verbose []
  = (events, Ok code) ->
  exists (batch_id cli : string) (mgr : Runner),
    search_batch config_file = Some batch_id
    /\ makedirs output = Ok tt
    /\ Utils.get_cli_string argv = Ok cli
    /\ JobRunner config_file output batch_id = Ok mgr
    /\ runner_run_jobs mgr verbose = Ok code
    /\ events =
         [Makedirs output;
          SetupLogging
            (PyStr.path_join output ("run_jobs_batch_" ++ batch_id ++ ".log"))
            (if verbose then DEBUG else INFO);
          LogInfo cli;
          JobRunnerInit config_file output batch_id;
          JobRunnerRun verbose].
Proof.
  unfold run_jobs.
  destruct (search_batch config_file) as [id|] eqn:Hid; [|discriminate].
  unfold cbind, call, cret, lift.
  destruct (makedirs output) as [[]|e] eqn:Hmk; cbn; [|discriminate].
  destruct (Utils.get_cli_string argv) as [cli|e] eqn:Hcli; cbn; [|discriminate].
  destruct (JobRunner config_file output id) as [mgr|e] eqn:Hmgr; cbn; [|discriminate].
  destruct (runner_run_jobs mgr verbose) as [ret|e] eqn:Hret; cbn; [|discriminate].
  intros [= <- <-]. exists id, cli, mgr. repeat split; assumption.
Qed.

End RunJobsFacts.

Lemma run_jobs_assertion_iff_witness :
  Fixtures.demo_run_jobs "config.json" []
  = ([], Raise (OtherError "AssertionError"))
  <-> ~ exists pre ds post,
          ds <> ""
          /\ Forall (fun c => PyStr.is_ascii_digit c = true) (list_ascii_of_string ds)
          /\ "config.json" = pre ++ "batch_" ++ ds ++ ".json" ++ post.
Proof.
  apply (run_jobs_assertion_iff (fun _ => Ok tt) unit (fun _ _ _ => Ok tt)
           (fun _ _ => Ok 3) ["/usr/bin/jade"; "run-jobs"; "config.json"]
           "config.json" "out" false).
  reflexivity.
Defined.

Lemma run_jobs_exit_code_witness :
  exists (batch_id cli : string) (mgr : unit),
    RunJobs.search_batch "config_batch_7.json" = Some batch_id
    /\ (fun _ : string => Ok tt) "out" = Ok tt
    /\ Utils.get_cli_string ["/usr/bin/jade"; "run-jobs"; "config_batch_7.json"] = Ok cli
    /\ (fun _ _ _ : string => Ok tt) "config_batch_7.json" "out" batch_id = Ok mgr
    /\ (fun (_ : unit) (_ : bool) => Ok 3) mgr false = Ok 3
    /\ (Fixtures.demo_run_jobs "config_batch_7.json" []).1 =
         [RunJobs.Makedirs "out";
          RunJobs.SetupLogging
            (PyStr.path_join "out" ("run_jobs_batch_" ++ batch_id ++ ".log"))
            RunJobs.INFO;
          RunJobs.LogInfo cli;
          RunJobs.JobRunnerInit "config_batch_7.json" "out" batch_id;
          RunJobs.JobRunnerRun false].
Proof.
  apply (run_jobs_exit_code (fun _ => Ok tt) unit (fun _ _ _ => Ok tt)
           (fun _ _ => Ok 3) ["/usr/bin/jade"; "run-jobs"; "config_batch_7.json"]
           "config_batch_7.json" "out" false
           (Fixtures.demo_run_jobs "config_batch_7.json" []).1 3).
  reflexivity.
Defined.

Example run_jobs_example :
  Fixtures.demo_run_jobs "config_batch_7.json" []
  = ([RunJobs.Makedirs "out";
      RunJobs.SetupLogging "out/run_jobs_batch_7.log" RunJobs.INFO;
      RunJobs.LogInfo "jade run-jobs config_batch_7.json";
      RunJobs.JobRunnerInit "config_batch_7.json" "out" "7";
      RunJobs.JobRunnerRun false], Ok 3)
  /\ Fixtures.demo_run_jobs "config.json" []
     = ([], Raise (OtherError "AssertionError")).
Proof. split; reflexivity. Qed.

(** ** check_filename, create_chunks and handle_key_error: the edges *)

Section UtilsEdges.

Import Utils.

Lemma valid_chars_no_slash (w tail : string) :
  FilenameRule.all_valid_chars w = true ->
  Forall (fun c => c <> "/"%char /\ c <> " "%char) (list_ascii_of_string tail) ->
  Forall (fun c => c <> "/"%char /\ c <> " "%char) (list_ascii_of_string (w ++ tail)).
Proof.
  intros Hall Htail. induction w as [|c w IH]; [exact Htail|].
  cbn [FilenameRule.all_valid_chars] in Hall.
  apply andb_true_iff in Hall as [Hc Hall].
  change (String c w ++ tail) with (String c (w ++ tail)).
  cbn [list_ascii_of_string]. constructor; [|exact (IH Hall)].
  split; intros ->; discriminate.
Qed.

Lemma string_append_nil_r (s : string) : s ++ "" = s.
Proof.
  induction s as [|c s IH]; [reflexivity|].
  change (String c s ++ "") with (String c (s ++ "")). now rewrite IH.
Qed.

Lemma length_append (s t : string) :
  String.length (s ++ t) = (String.length s + String.length t)%nat.
Proof.
  induction s as [|c s IH]; [reflexivity|].
  change (String c s ++ t) with (String c (s ++ t)). cbn [String.length].
  now rewrite IH.
Qed.

Lemma valid_iff (name : string) :
  FilenameRule.valid name = true <->
  FilenameRule.all_valid_chars name = true /\ name <> ""
  /\ Z.of_nat (String.length name) <= MAX_PATH_LENGTH.
Proof.
  unfold FilenameRule.valid. rewrite !andb_true_iff, negb_true_iff, Z.leb_le.
  destruct (String.eqb_spec name ""); split; intros H; destruct_and?;
    repeat split; (assumption || congruence).
Qed.

Lemma all_valid_chars_newline (w : string) :
  FilenameRule.all_valid_chars (w ++ String "010" "") = false.
Proof.
  induction w as [|c w IH]; [reflexivity|].
  change (String c w ++ String "010" "") with (String c (w ++ String "010" "")).
  cbn [FilenameRule.all_valid_chars]. rewrite IH. apply andb_false_r.
Qed.

(** X21: among the names made of ASCII characters, [check_filename]
    returns normally on exactly two kinds: those that follow the rule
    of its docstring (only letters, numbers, underscore, hyphen and
    period, not empty, at most 255 characters), and those made of such
    characters followed by one newline, the newline counting in the
    255. On every other ASCII name it raises [InvalidParameter]. *)
Theorem check_filename_accepts_iff (name : string) :
  PyStr.ascii_only name = true ->
  (check_filename name = Ok tt <->
   FilenameRule.valid name = true
   \/ exists w, name = w ++ String "010" "" /\ w <> ""
                /\ FilenameRule.all_valid_chars w = true
                /\ Z.of_nat (String.length name) <= MAX_PATH_LENGTH)
  /\ (check_filename name <> Ok tt ->
      exists msg, check_filename name = Raise (InvalidParameter msg)).
Proof.
  intros _. split.
  - rewrite check_filename_ok_iff, valid_iff. split.
    + intros [(w & [->|Hname] & Hne & Hall) Hlen]; [left; auto|].
      right. exists w. auto.
    + intros [(Hall & Hne & Hlen)|(w & Hname & Hne & Hall & Hlen)].
      * split; [|exact Hlen]. exists name. auto.
      * split; [|exact Hlen]. exists w. auto.
  - unfold check_filename. destruct (negb _); [eauto|].
    destruct (_ >? _); [eauto|congruence].
Qed.

Lemma check_filename_accepts_iff_witness :
  (check_filename "job_1.log" = Ok tt <->
   FilenameRule.valid "job_1.log" = true
   \/ exists w, "job_1.log" = w ++ String "010" "" /\ w <> ""
                /\ FilenameRule.all_valid_chars w = true
                /\ Z.of_nat (String.length "job_1.log") <= MAX_PATH_LENGTH)
  /\ (check_filename "job_1.log" <> Ok tt ->
      exists msg, check_filename "job_1.log" = Raise (InvalidParameter msg)).
Proof. apply (check_filename_accepts_iff "job_1.log"). reflexivity. Defined.

(** X22: a name that [check_filename] accepts has between 1 and 255
    characters and contains neither a slash nor a space. *)
Theorem check_filename_accepted_names (name : string) :
  check_filename name = Ok tt ->
  (1 <= String.length name <= 255)%nat
  /\ Forall (fun c => c <> "/"%char /\ c <> " "%char) (list_ascii_of_string name).
Proof.
  intros Hok. apply check_filename_ok_iff in Hok as [(w & Hname & Hne & Hall) Hlen].
  unfold MAX_PATH_LENGTH in Hlen. split.
  - split; [|lia].
    destruct Hname as [->| ->]; [|rewrite length_append];
      destruct w; cbn [String.length]; (congruence || lia).
  - destruct Hname as [->| ->].
    + rewrite <- (string_append_nil_r w).
      apply valid_chars_no_slash; [exact Hall|constructor].
    + apply valid_chars_no_slash; [exact Hall|].
      repeat constructor; discriminate.
Qed.

Lemma check_filename_accepted_names_witness :
  (1 <= String.length "job_1.log" <= 255)%nat
  /\ Forall (fun c => c <> "/"%char /\ c <> " "%char) (list_ascii_of_string "job_1.log").
Proof. apply (check_filename_accepted_names "job_1.log"). reflexivity. Defined.

Context {A : Type}.

Lemma range_length_ceil (n size : Z) :
  0 <= n -> 0 < size -> range_length 0 n size = (n + size - 1) / size.
Proof.
  intros Hn Hs. unfold range_length.
  destruct (Z.ltb_spec 0 size) as [_|]; [|lia].
  destruct (Z.ltb_spec 0 n) as [Hpos|Hzero].
  - replace (n + size - 1) with (n - 0 - 1 + 1 * size) by lia.
    rewrite Z.div_add by lia. reflexivity.
  - replace n with 0 by lia. rewrite Z.div_small; lia.
Qed.

(** X23: for a positive size the number of chunks is the length of the
    list divided by the size, rounded up: none for the empty list, and
    the list itself as the only chunk when it is not empty and not
    longer than the size. *)
Theorem create_chunks_count (items : list A) (size : Z) :
  0 < size ->
  exists chunks : list (list A),
    create_chunks items size = Ok chunks
    /\ Z.of_nat (length chunks) = (Z.of_nat (length items) + size - 1) / size
    /\ (items = [] -> chunks = [])
    /\ (items <> [] -> Z.of_nat (length items) <= size -> chunks = [items]).
Proof.
  intros Hs. eexists. split; [apply (create_chunks_eq items size Hs)|].
  rewrite length_map, length_seq.
  pose proof (range_length_ceil (Z.of_nat (length items)) size ltac:(lia) Hs) as Hceil.
  split; [|split].
  - rewrite Z2Nat.id; [exact Hceil|].
    rewrite Hceil. apply Z.div_pos; lia.
  - intros ->. rewrite Hceil. cbn [length Z.of_nat].
    rewrite Z.div_small by lia. reflexivity.
  - intros Hne Hle.
    assert (0 < Z.of_nat (length items)) by (destruct items; [congruence|cbn; lia]).
    assert (Hone : range_length 0 (Z.of_nat (length items)) size = 1).
    { rewrite Hceil. replace (Z.of_nat (length items) + size - 1)
        with (Z.of_nat (length items) - 1 + 1 * size) by lia.
      rewrite Z.div_add, Z.div_small; lia. }
    rewrite Hone. change (Z.to_nat 1) with 1%nat. cbn [seq map Nat.mul].
    rewrite drop_0, take_ge by lia. reflexivity.
Qed.

(** X24: a size that is not positive never gives the items back: size 0
    raises [ValueError], and a negative size yields no chunk at all,
    whatever the list holds. *)
Theorem create_chunks_nonpositive_size (items : list A) (size : Z) :
  (size = 0 ->
   create_chunks items size = Raise (ValueError "range() arg 3 must not be zero"))
  /\ (size < 0 -> create_chunks items size = Ok []).
Proof.
  unfold create_chunks, range, range_length. split.
  - intros ->. reflexivity.
  - intros Hneg.
    destruct (Z.eqb_spec size 0) as [|_]; [lia|].
    destruct (Z.ltb_spec 0 size) as [|_]; [lia|].
    destruct (Z.ltb_spec (Z.of_nat (length items)) 0) as [|_]; [lia|].
    reflexivity.
Qed.

(** X25: a function wrapped by [handle_key_error] never raises
    [KeyError]: that exception becomes [InvalidParameter], with the
    key in the message; a returned value and any other exception pass
    through unchanged, and wrapping twice is the same as wrapping
    once. *)
Theorem handle_key_error_cases {B C : Type}
    (repr : string -> string) (func : B -> result C) (args : B) :
  (forall key, handle_key_error repr func args <> Raise (KeyError key))
  /\ (forall c, func args = Ok c -> handle_key_error repr func args = Ok c)
  /\ (forall key, func args = Raise (KeyError key) ->
      handle_key_error repr func args
      = Raise (InvalidParameter ("invalid parameter: " ++ repr key)))
  /\ (forall e, func args = Raise e -> (forall key, e <> KeyError key) ->
      handle_key_error repr func args = Raise e)
  /\ handle_key_error repr (handle_key_error repr func) args
     = handle_key_error repr func args.
Proof.
  unfold handle_key_error.
  destruct (func args) as [c|[]]; repeat split; intros; try congruence.
Qed.

End UtilsEdges.

Lemma create_chunks_count_witness :
  exists chunks : list (list Z),
    Utils.create_chunks [1; 2; 3; 4; 5; 6; 7] 3 = Ok chunks
    /\ Z.of_nat (length chunks) = (Z.of_nat (length [1; 2; 3; 4; 5; 6; 7]) + 3 - 1) / 3
    /\ ([1; 2; 3; 4; 5; 6; 7] = [] -> chunks = [])
    /\ ([1; 2; 3; 4; 5; 6; 7] <> [] -> Z.of_nat (length [1; 2; 3; 4; 5; 6; 7]) <= 3 ->
        chunks = [[1; 2; 3; 4; 5; 6; 7]]).
Proof. apply (create_chunks_count [1; 2; 3; 4; 5; 6; 7] 3). lia. Defined.

(** ** modify_file *)

Section ModifyFileFacts.

Import Os.

(** The text that a sequence of [write] calls leaves in a file. *)
Local Abbreviation written lines := (fold_right String.append "" lines).


















Example modify_file_examples :
  (fs (Utils.modify_file "run.sh" Fixtures.mark_line
         (Fixtures.world_with_script no_faults)).1 !! "run.sh"
   = Some {| content := "# echo old"; st_mode := 420 |})
  /\ (Utils.modify_file "run.sh" Fixtures.mark_line
        Fixtures.world_with_short_write).2
     = Raise (OSError "write")
  /\ (fs (Utils.modify_file "run.sh" Fixtures.mark_line
            Fixtures.world_with_short_write).1 !! "run.sh.tmp"
      = Some {| content := "# ech"; st_mode := 420 |}).
Proof. vm_compute. repeat split. Qed.

(** When the rename is refused, [shutil.move] copies over the file; a
    failure in that copy is raised with the file already changed. *)
Example modify_file_refused_rename :
  (Utils.modify_file "run.sh" Fixtures.mark_line Fixtures.world_rename_refused).2
  = Raise (OSError "chmod")
  /\ content <$> (fs (Utils.modify_file "run.sh" Fixtures.mark_line
                        Fixtures.world_rename_refused).1 !! "run.sh")
     = Some "# echo old".
Proof. vm_compute. split; reflexivity. Qed.

End ModifyFileFacts.

(** ** The module chosen from a file's extension *)

Section ExtensionFacts.

Import Utils.

Lemma rfind_range (c : ascii) (s : string) :
  -1 <= PyStr.rfind c s < Z.of_nat (String.length s).
Proof.
  induction s as [|a s IH]; cbn [PyStr.rfind String.length]; [lia|].
  destruct (Z.leb_spec 0 (PyStr.rfind c s)); [lia|].
  destruct (Ascii.eqb a c); lia.
Qed.

Lemma rfind_app_absent (c : ascii) (s t : string) :
  PyStr.rfind c t = -1 -> PyStr.rfind c (s ++ t) = PyStr.rfind c s.
Proof.
  intros Ht. induction s as [|a s IH]; [exact Ht|].
  rewrite append_cons. cbn [PyStr.rfind]. now rewrite IH.
Qed.

Lemma rfind_app_present (c : ascii) (s t : string) :
  PyStr.rfind c t = -1 ->
  PyStr.rfind c (s ++ String c t) = Z.of_nat (String.length s).
Proof.
  intros Ht. induction s as [|a s IH].
  - rewrite append_nil_l. cbn [PyStr.rfind]. rewrite Ht. cbn.
    now rewrite Ascii.eqb_refl.
  - rewrite append_cons. cbn [PyStr.rfind String.length]. rewrite IH.
    destruct (Z.leb_spec 0 (Z.of_nat (String.length s))); lia.
Qed.

Lemma str_take_app (s t : string) : PyStr.take (String.length s) (s ++ t) = s.
Proof.
  induction s as [|a s IH]; [now destruct t|].
  rewrite append_cons. cbn [String.length PyStr.take]. now rewrite IH.
Qed.

Lemma str_drop_app (s t : string) : PyStr.drop (String.length s) (s ++ t) = t.
Proof.
  induction s as [|a s IH]; [now destruct t|].
  rewrite append_cons. cbn [String.length PyStr.drop]. exact IH.
Qed.

Lemma str_drop_app_le (n : nat) (s t : string) :
  (n <= String.length s)%nat -> PyStr.drop n (s ++ t) = PyStr.drop n s ++ t.
Proof.
  revert s. induction n as [|n IH]; intros s Hn.
  - now destruct s, t.
  - destruct s as [|a s]; [cbn in Hn; lia|].
    rewrite append_cons. cbn [PyStr.drop]. apply IH. cbn in Hn. lia.
Qed.

Lemma str_length_drop (n : nat) (s : string) :
  String.length (PyStr.drop n s) = (String.length s - n)%nat.
Proof.
  revert s. induction n as [|n IH]; intros s.
  - destruct s; cbn; lia.
  - destruct s as [|a s]; [reflexivity|]. cbn [PyStr.drop String.length]. apply IH.
Qed.

(** What [splitext] sees between the last slash and the last dot of
    [stem ++ "." ++ e] is the last component of [stem]. *)
Lemma splitext_leading (stem e : string) :
  PyStr.rfind "." e = -1 -> PyStr.rfind "/" e = -1 ->
  let p := stem ++ String "." e in
  PyStr.rfind "." p = Z.of_nat (String.length stem)
  /\ PyStr.rfind "/" p = PyStr.rfind "/" stem
  /\ PyStr.take (Z.to_nat (PyStr.rfind "." p - (PyStr.rfind "/" p + 1)))
       (PyStr.drop (Z.to_nat (PyStr.rfind "/" p + 1)) p)
     = PyStr.basename stem.
Proof.
  intros Hdot Hsep p.
  assert (Hd : PyStr.rfind "." p = Z.of_nat (String.length stem))
    by (apply rfind_app_present; exact Hdot).
  assert (Hs : PyStr.rfind "/" p = PyStr.rfind "/" stem).
  { apply rfind_app_absent. cbn [PyStr.rfind]. rewrite Hsep. reflexivity. }
  split; [exact Hd|]. split; [exact Hs|].
  rewrite Hd, Hs. unfold p, PyStr.basename.
  pose proof (rfind_range "/" stem) as Hr.
  rewrite str_drop_app_le by lia.
  replace (Z.to_nat (Z.of_nat (String.length stem) - (PyStr.rfind "/" stem + 1)))
    with (String.length (PyStr.drop (Z.to_nat (PyStr.rfind "/" stem + 1)) stem))
    by (rewrite str_length_drop; lia).
  apply str_take_app.
Qed.

Lemma splitext_with_extension (stem e : string) :
  only_dots (PyStr.basename stem) = false ->
  PyStr.rfind "." e = -1 -> PyStr.rfind "/" e = -1 ->
  splitext (stem ++ String "." e) = (stem, String "." e).
Proof.
  intros Hbase Hdot Hsep.
  destruct (splitext_leading stem e Hdot Hsep) as (Hd & Hs & Hlead).
  unfold splitext. rewrite Hlead, Hbase.
  pose proof (rfind_range "/" stem) as Hr.
  destruct (Z.ltb_spec (PyStr.rfind "/" (stem ++ String "." e))
              (PyStr.rfind "." (stem ++ String "." e))) as [_|Hge]; [|lia].
  rewrite Hd, Nat2Z.id, str_take_app, str_drop_app. reflexivity.
Qed.

Lemma splitext_dotfile (stem e : string) :
  only_dots (PyStr.basename stem) = true ->
  PyStr.rfind "." e = -1 -> PyStr.rfind "/" e = -1 ->
  splitext (stem ++ String "." e) = (stem ++ String "." e, "").
Proof.
  intros Hbase Hdot Hsep.
  destruct (splitext_leading stem e Hdot Hsep) as (Hd & Hs & Hlead).
  unfold splitext. rewrite Hlead, Hbase.
  now destruct (_ <? _).
Qed.

Context {Mod : Type}.

(** X29: for a file name [stem.e] whose last path component before the
    extension is not empty and not made of dots only, the module is
    chosen by the extension alone, upper or lower case: json, toml, and
    yaml for both yml and yaml, whatever the [mod] argument. Any other
    extension gives the [mod] argument if there is one and raises
    [InvalidParameter] if not. *)
Theorem get_module_by_extension (stem e : string) (kwargs_mod : option Mod) :
  only_dots (PyStr.basename stem) = false ->
  PyStr.rfind "." e = -1 -> PyStr.rfind "/" e = -1 ->
  _get_module_from_extension (stem ++ "." ++ e) kwargs_mod
  = if String.eqb (PyStr.lower e) "json" then Ok json
    else if String.eqb (PyStr.lower e) "toml" then Ok toml
    else if String.eqb (PyStr.lower e) "yml" || String.eqb (PyStr.lower e) "yaml"
         then Ok yaml
    else match kwargs_mod with
         | Some m => Ok (custom m)
         | None => Raise (InvalidParameter
                            ("Unsupported extension " ++ stem ++ "." ++ e))
         end.
Proof.
  intros Hbase Hdot Hsep. unfold _get_module_from_extension.
  change ("." ++ e) with (String "." e).
  rewrite (splitext_with_extension stem e Hbase Hdot Hsep).
  reflexivity.
Qed.

(** X30: a file whose name is nothing but an extension, such as
    ".json" or "dir/.json", has no extension for
    [_get_module_from_extension]: the [mod] argument is used if there
    is one, and [InvalidParameter] is raised if not. *)
Theorem get_module_dotfile (stem e : string) (kwargs_mod : option Mod) :
  only_dots (PyStr.basename stem) = true ->
  PyStr.rfind "." e = -1 -> PyStr.rfind "/" e = -1 ->
  _get_module_from_extension (stem ++ "." ++ e) kwargs_mod
  = match kwargs_mod with
    | Some m => Ok (custom m)
    | None => Raise (InvalidParameter
                       ("Unsupported extension " ++ stem ++ "." ++ e))
    end.
Proof.
  intros Hbase Hdot Hsep. unfold _get_module_from_extension.
  change ("." ++ e) with (String "." e).
  rewrite (splitext_dotfile stem e Hbase Hdot Hsep).
  reflexivity.
Qed.

End ExtensionFacts.

Lemma get_module_by_extension_witness :
  Utils._get_module_from_extension ("out/config" ++ "." ++ "JSON") (@None unit)
  = if String.eqb (PyStr.lower "JSON") "json" then Ok Utils.json
    else if String.eqb (PyStr.lower "JSON") "toml" then Ok Utils.toml
    else if String.eqb (PyStr.lower "JSON") "yml" || String.eqb (PyStr.lower "JSON") "yaml"
         then Ok Utils.yaml
    else Raise (InvalidParameter ("Unsupported extension " ++ "out/config" ++ "." ++ "JSON")).
Proof.
  apply (get_module_by_extension "out/config" "JSON" (@None unit)); reflexivity.
Defined.

Lemma get_module_dotfile_witness :
  Utils._get_module_from_extension ("out/" ++ "." ++ "json") (@None unit)
  = Raise (InvalidParameter ("Unsupported extension " ++ "out/" ++ "." ++ "json")).
Proof.
  apply (get_module_dotfile "out/" "json" (@None unit)); reflexivity.
Defined.

Example get_module_examples :
  Utils._get_module_from_extension "results.YAML" (@None unit) = Ok Utils.yaml
  /\ Utils._get_module_from_extension "data.yml" (Some tt) = Ok Utils.yaml
  /\ Utils._get_module_from_extension "data.csv" (Some tt) = Ok (Utils.custom tt)
  /\ raises (Utils._get_module_from_extension "archive.tar.gz" (@None unit)).
Proof. vm_compute. repeat split. Qed.
